(** * Reward-model trainers of chaiverse: a shallow embedding

    Source: [src/chaiverse/dev/model/reward_model.py].

    The module is a thin adapter around a training engine.  What it computes
    itself is (1) the keyword arguments of the training configuration, (2) the
    label formatting of the classification trainer (a NumPy one-hot
    expansion guarded by an assertion) and (3) a handful of lookups in the
    fold mapping.  The embedding follows the file top to bottom:

    - Python exceptions are values of [exn]; a fallible pure computation
      returns [result];
    - the objects the code shares and mutates (the fold mapping, the tables it
      refers to) live in a heap of objects addressed by [loc]; methods run in
      a state-and-exception monad [M] over [state], which also holds [self];
    - the external collaborators (model registry, training engine, artifact
      registry) are recorded as events in the state's log and return symbolic
      handles; their own failures are not modelled, except for the injected
      tokenizer loader, whose [load()] may raise;
    - labels are integers: a cell of the "labels" column is an integer or a
      nested list of integers.  [assert] statements are executed (the
      interpreter does not run with [-O]). *)

From Stdlib Require Import ZArith Lia.
From stdpp Require Import base option list strings.

Local Open Scope string_scope.
Local Open Scope list_scope.
Set Warnings "-register-all".

(** ** Exceptions and fallible computations *)

Inductive exn :=
| AssertionError
| IndexError
| ValueError
| TypeError
| NotImplementedError
| KeyError (key : string)
| AttributeError (attr : string).

Inductive result (A : Type) :=
| Ok (a : A)
| Raise (e : exn).
Arguments Ok {A} a.
Arguments Raise {A} e.

#[global] Instance result_ret : MRet result := @Ok.
#[global] Instance result_bind : MBind result := fun A B f r =>
  match r with
  | Ok a => f a
  | Raise e => Raise e
  end.

(** [assert cond] *)
Definition py_assert (cond : bool) : result unit :=
  if cond then Ok tt else Raise AssertionError.

(** Monadic map, left to right; the first exception wins. *)
Definition mapM {A B : Type} (f : A -> result B) : list A -> result (list B) :=
  fix go l :=
    match l with
    | [] => Ok []
    | x :: r =>
        match f x with
        | Ok y => match go r with
                  | Ok ys => Ok (y :: ys)
                  | Raise e => Raise e
                  end
        | Raise e => Raise e
        end
    end.

(** ** Python values held by the hyperparameters

    A float is kept as the decimal literal [m * 10^e] it was written as: the
    module only stores and forwards it. *)

Inductive value :=
| VNone
| VBool (b : bool)
| VInt (z : Z)
| VFloat (m e : Z)
| VStr (s : string)
| VList (l : list value).

(** Truth value of an object, as [or] tests it. *)
Definition truthy (v : value) : bool :=
  match v with
  | VNone => false
  | VBool b => b
  | VInt z => negb (z =? 0)%Z
  | VFloat m _ => negb (m =? 0)%Z
  | VStr s => negb (String.eqb s EmptyString)
  | VList l => match l with [] => false | _ :: _ => true end
  end.

(** [a or b] *)
Definition py_or (a b : value) : value := if truthy a then a else b.

(** ** Label data and the NumPy operations used on it

    A cell of the "labels" column is an integer or a (nested) list of cells;
    [df['labels']] is the Python list of the column's cells. *)

Inductive cell :=
| CInt (z : Z)
| CList (l : list cell).

(** Shape that [np.array] infers for the list [l] given the shapes of its
    elements: all elements must have the same shape, otherwise the list is
    ragged and [None] is returned. *)
Definition common_shape (shapes : list (option (list nat))) : option (list nat) :=
  match shapes with
  | [] => Some [0]
  | None :: _ => None
  | Some s :: rest =>
      if forallb (fun o => bool_decide (o = Some s)) rest
      then Some (length shapes :: s)
      else None
  end.

Fixpoint cell_shape (c : cell) : option (list nat) :=
  match c with
  | CInt _ => Some []
  | CList l => common_shape (map cell_shape l)
  end.

(** The scalars of a cell in row-major order ([ravel]). *)
Fixpoint leaves (c : cell) : list Z :=
  match c with
  | CInt z => [z]
  | CList l => concat (map leaves l)
  end.

Inductive np_dtype := int64 | float64.

Record ndarray := {
  nd_dtype : np_dtype;
  nd_shape : list nat;
  nd_items : list cell
}.

Definition ndim (a : ndarray) : nat := length (nd_shape a).

(** [np.array(l)] for a Python list [l] of integer cells.  A ragged list is
    rejected with [ValueError]; a list without any scalar (such as [[]]) gets
    NumPy's default dtype [float64], any other one [int64]. *)
Definition np_array (l : list cell) : result ndarray :=
  match cell_shape (CList l) with
  | None => Raise ValueError
  | Some sh =>
      Ok {| nd_dtype := match leaves (CList l) with [] => float64 | _ :: _ => int64 end;
            nd_shape := sh;
            nd_items := l |}
  end.

(** [np.unique]: the sorted distinct scalars of the array. *)
Fixpoint insert_unique (z : Z) (l : list Z) : list Z :=
  match l with
  | [] => [z]
  | y :: r =>
      if (z <? y)%Z then z :: l
      else if (z =? y)%Z then l
      else y :: insert_unique z r
  end.

Definition np_unique (a : ndarray) : list Z :=
  foldr insert_unique [] (leaves (CList (nd_items a))).

(** [np.eye(n)]: the [n] by [n] identity matrix.  Its entries [0.0] and [1.0]
    are kept as the integers [.astype(int)] turns them into. *)
Definition eye_row (n i : nat) : list Z :=
  map (fun j => if Nat.eqb i j then 1%Z else 0%Z) (seq 0 n).

Definition np_eye (n : Z) : result (list (list Z)) :=
  if (n <? 0)%Z then Raise ValueError
  else Ok (map (eye_row (Z.to_nat n)) (seq 0 (Z.to_nat n))).

(** Row [i] of matrix [m], with NumPy's index rule: [-len <= i < len], a
    negative index counting from the end. *)
Definition np_row (m : list (list Z)) (i : Z) : result (list Z) :=
  let n := Z.of_nat (length m) in
  if ((- n <=? i) && (i <? n))%Z then
    match m !! Z.to_nat (if (i <? 0)%Z then i + n else i)%Z with
    | Some r => Ok r
    | None => Raise IndexError
    end
  else Raise IndexError.

(** [m[labels]] followed by [.tolist()]: every scalar of [labels] is replaced
    by the row it selects. *)
Fixpoint take_rows (m : list (list Z)) (c : cell) : result cell :=
  match c with
  | CInt z => r ← np_row m z; Ok (CList (map CInt r))
  | CList l => l' ← mapM (take_rows m) l; Ok (CList l')
  end.

(** [m[labels]]: an index array must have an integer dtype. *)
Definition np_take (m : list (list Z)) (labels : ndarray) : result (list cell) :=
  match nd_dtype labels with
  | float64 => Raise IndexError
  | int64 => mapM (take_rows m) (nd_items labels)
  end.

(** [np.argmax] of a vector: the first position of its maximum. *)
Fixpoint argmax_from (best : Z) (besti i : nat) (l : list Z) : nat :=
  match l with
  | [] => besti
  | x :: r => if (best <? x)%Z then argmax_from x i (S i) r
              else argmax_from best besti (S i) r
  end.

Definition np_argmax (l : list Z) : nat :=
  match l with
  | [] => 0
  | x :: r => argmax_from x 0 1 r
  end.

(** ** Tables (the datasets of the folds)

    A table is an ordered list of named columns; a column carries the element
    dtype of its storage and its cells.  Tables are immutable values: every
    operation returns a new table. *)

Record column := {
  col_dtype : string;
  col_data : list cell
}.

Abbreviation table := (list (string * column)).

Definition has_column (df : table) (name : string) : bool :=
  existsb (fun c => String.eqb (fst c) name) df.

(** [df[name]] *)
Definition getitem (df : table) (name : string) : result (list cell) :=
  match find (fun c => String.eqb (fst c) name) df with
  | Some c => Ok (col_data (snd c))
  | None => Raise (KeyError name)
  end.

(** [df.remove_columns(name)] *)
Definition remove_columns (df : table) (name : string) : result table :=
  if has_column df name
  then Ok (filter (fun c => fst c ≠ name) df)
  else Raise ValueError.

(** [df.add_column(name, data)]: the data is a list of Python integers or of
    lists of them, stored with element dtype int64. *)
Definition add_column (df : table) (name : string) (data : list cell) : result table :=
  if has_column df name
  then Raise ValueError
  else Ok (df ++ [(name, {| col_dtype := "int64"; col_data := data |})])%list.

(** Modelled from the spec: [utils.format_dataset_dtype(df, name, dtype)] of
    [chaiverse.dev.utils], which is not part of the sources at hand.  The spec
    says it casts the named column to the given numeric type, leaving shape
    and cardinality untouched.  Labels are kept by their integer values, so
    the cast changes the storage dtype of the column and nothing else. *)
Definition format_dataset_dtype (df : table) (name dtype : string) : table :=
  map (fun c => if String.eqb (fst c) name
                then (fst c, {| col_dtype := dtype; col_data := col_data (snd c) |})
                else c) df.

(** ** Objects of the module *)

Inductive trainer_cls :=
| BaseRewardTrainer
| RewardRegressionTrainer
| RewardClassificationTrainer.

(** Class attribute [_training_task]. *)
Definition _training_task (c : trainer_cls) : value :=
  match c with
  | BaseRewardTrainer => VNone
  | RewardRegressionTrainer => VStr "regression"
  | RewardClassificationTrainer => VStr "single_label_classification"
  end.

(** Names collected by [ABCMeta] from the [@abstractmethod] decorators that
    the class does not override. *)
Definition abstractmethods (c : trainer_cls) : list string :=
  match c with
  | BaseRewardTrainer => ["_format_data_by_training_task"]
  | RewardRegressionTrainer | RewardClassificationTrainer => []
  end.

(** Handles handed out by the collaborators. *)
Inductive tokenizer_t := Tokenizer (name : string).

(** The injected tokenizer loader: what its [load()] does. *)
Record loader := { load : result tokenizer_t }.

(** Result of [AutoModelForSequenceClassification.from_pretrained]. *)
Record model_t := {
  pretrained_name : value;
  head_num_labels : Z;
  problem_type : value;
  placement : value
}.

(** Keyword arguments received by [TrainingArguments]. *)
Record TrainingArguments := {
  ta_output_dir : string;
  ta_learning_rate : value;
  ta_num_train_epochs : value;
  ta_logging_dir : string;
  ta_logging_strategy : value;
  ta_logging_steps : value;
  ta_evaluation_strategy : value;
  ta_eval_steps : value;
  ta_save_strategy : value;
  ta_save_steps : value;
  ta_bf16 : value;
  ta_optim : value;
  ta_logging_first_step : value;
  ta_seed : value;
  ta_per_device_train_batch_size : value;
  ta_per_device_eval_batch_size : value;
  ta_gradient_accumulation_steps : value
}.

Abbreviation loc := nat (only parsing).

(** Keyword arguments received by [_trainer_cls] (the engine [Trainer]). *)
Record Trainer := {
  tr_model : model_t;
  tr_args : TrainingArguments;
  tr_tokenizer : tokenizer_t;
  tr_train_dataset : loc;
  tr_eval_dataset : option loc
}.

(** Constructor arguments of a trainer. *)
Module Args.
Record t := {
  model_name : value;
  tokenize_loader : loader;
  output_dir : string;
  num_labels : Z;
  learning_rate : value;
  num_train_epochs : value;
  optim : value;
  bf16 : value;
  logging_strategy : value;
  logging_steps : value;
  eval_strategy : value;
  eval_steps : value;
  save_strategy : value;
  save_steps : value;
  per_device_batch_size : value;
  gradient_accumulation_steps : value;
  train_seed : value;
  device_map : value
}.

(** The defaults of the signature of [__init__]. *)
Definition defaults (model_name : value) (tokenize_loader : loader)
    (output_dir : string) : t :=
  {| model_name := model_name;
     tokenize_loader := tokenize_loader;
     output_dir := output_dir;
     num_labels := 1;
     learning_rate := VFloat 2 (-5);
     num_train_epochs := VInt 1;
     optim := VStr "adamw_hf";
     bf16 := VBool false;
     logging_strategy := VStr "steps";
     logging_steps := VInt 50;
     eval_strategy := VStr "no";
     eval_steps := VNone;
     save_strategy := VStr "no";
     save_steps := VNone;
     per_device_batch_size := VInt 8;
     gradient_accumulation_steps := VInt 1;
     train_seed := VInt 1;
     device_map := VStr "auto" |}.
End Args.

(** A trainer instance: the attributes set by [__init__] and the three
    attributes ([tokenizer], [model], [trainer]) that exist only once a method
    has set them. *)
Record reward_trainer := {
  cls : trainer_cls;
  model_name : value;
  tokenize_loader : loader;
  output_dir : string;
  num_labels : Z;
  learning_rate : value;
  num_train_epochs : value;
  optim : value;
  bf16 : value;
  logging_strategy : value;
  logging_steps : value;
  eval_strategy : value;
  eval_steps : value;
  save_strategy : value;
  save_steps : value;
  per_device_batch_size : value;
  gradient_accumulation_steps : value;
  train_seed : value;
  device_map : value;
  tokenizer : option tokenizer_t;
  model : option model_t;
  trainer : option Trainer
}.

Definition __init__ (c : trainer_cls) (a : Args.t) : reward_trainer :=
  {| cls := c;
     model_name := Args.model_name a;
     tokenize_loader := Args.tokenize_loader a;
     output_dir := Args.output_dir a;
     num_labels := Args.num_labels a;
     learning_rate := Args.learning_rate a;
     num_train_epochs := Args.num_train_epochs a;
     optim := Args.optim a;
     bf16 := Args.bf16 a;
     logging_strategy := Args.logging_strategy a;
     logging_steps := Args.logging_steps a;
     eval_strategy := Args.eval_strategy a;
     eval_steps := Args.eval_steps a;
     save_strategy := Args.save_strategy a;
     save_steps := Args.save_steps a;
     per_device_batch_size := Args.per_device_batch_size a;
     gradient_accumulation_steps := Args.gradient_accumulation_steps a;
     train_seed := Args.train_seed a;
     device_map := Args.device_map a;
     tokenizer := None;
     model := None;
     trainer := None |}.

(** Instantiation [cls(...)]: a class with abstract methods left cannot be instantiated,
    [object.__new__] raises [TypeError] before [__init__] runs. *)
Definition new (c : trainer_cls) (a : Args.t) : result reward_trainer :=
  match abstractmethods c with
  | [] => Ok (__init__ c a)
  | _ :: _ => Raise TypeError
  end.

(** ** Heap, log and the monad of methods *)

Inductive obj :=
| OTable (df : table)
| ODict (items : list (string * loc)).

(** Calls made on the collaborators. *)
Inductive event :=
| from_pretrained (m : model_t)
| train (t : Trainer)
| save_pretrained (m : model_t) (save_path : value)
| model_push_to_hub (m : model_t) (hf_path private : value)
| tokenizer_push_to_hub (t : tokenizer_t) (hf_path private : value).

Record state := {
  self : reward_trainer;
  heap : list obj;
  log : list event
}.

Definition M (A : Type) : Type := state -> result A * state.

#[global] Instance M_ret : MRet M := fun A a s => (Ok a, s).
#[global] Instance M_bind : MBind M := fun A B f m s =>
  match m s with
  | (Ok a, s') => f a s'
  | (Raise e, s') => (Raise e, s')
  end.

Definition lift {A : Type} (r : result A) : M A := fun s => (r, s).

Definition get_self : M reward_trainer := fun s => (Ok (self s), s).

Definition set_self (t : reward_trainer) : M unit := fun s =>
  (Ok tt, {| self := t; heap := heap s; log := log s |}).

(** Reading an attribute that may not have been set yet. *)
Definition getattr {A : Type} (name : string) (field : reward_trainer -> option A) : M A :=
  fun s => match field (self s) with
           | Some a => (Ok a, s)
           | None => (Raise (AttributeError name), s)
           end.

Definition emit (e : event) : M unit := fun s =>
  (Ok tt, {| self := self s; heap := heap s; log := (log s ++ [e])%list |}).

(** A new object gets the next free address. *)
Definition alloc (o : obj) : M loc := fun s =>
  (Ok (length (heap s)), {| self := self s; heap := (heap s ++ [o])%list; log := log s |}).

Definition read_table (l : loc) : M table := fun s =>
  match heap s !! l with
  | Some (OTable df) => (Ok df, s)
  | _ => (Raise TypeError, s)
  end.

Definition read_dict (l : loc) : M (list (string * loc)) := fun s =>
  match heap s !! l with
  | Some (ODict items) => (Ok items, s)
  | _ => (Raise TypeError, s)
  end.

(** ** Dictionaries: insertion-ordered association lists with unique keys *)

(** [d.get(k, None)] *)
Definition dict_get (k : string) (items : list (string * loc)) : option loc :=
  snd <$> find (fun kv => String.eqb (fst kv) k) items.

(** [d[k] = v] on the items: an existing key keeps its position. *)
Fixpoint dict_set (k : string) (v : loc) (items : list (string * loc)) : list (string * loc) :=
  match items with
  | [] => [(k, v)]
  | (k', v') :: r =>
      if String.eqb k' k then (k, v) :: r else (k', v') :: dict_set k v r
  end.

(** [d[k]] *)
Definition getitem_dict (d : loc) (k : string) : M loc :=
  items ← read_dict d;
  match dict_get k items with
  | Some v => mret v
  | None => lift (Raise (KeyError k))
  end.

(** [d.get(k, None)] *)
Definition get_dict (d : loc) (k : string) : M (option loc) :=
  items ← read_dict d;
  mret (dict_get k items).

(** [d[k] = v]: the dictionary object is updated in place. *)
Definition setitem_dict (d : loc) (k : string) (v : loc) : M unit := fun s =>
  match heap s !! d with
  | Some (ODict items) =>
      (Ok tt, {| self := self s;
                 heap := <[d := ODict (dict_set k v items)]> (heap s);
                 log := log s |})
  | _ => (Raise TypeError, s)
  end.

(** [copy.copy(d)]: a new dictionary with the same items. *)
Definition copy_copy (d : loc) : M loc :=
  items ← read_dict d;
  alloc (ODict items).

(** ** Attribute assignment on [self] *)

Definition with_tokenizer (t : reward_trainer) (v : tokenizer_t) : reward_trainer :=
  {| cls := cls t; model_name := model_name t; tokenize_loader := tokenize_loader t;
     output_dir := output_dir t; num_labels := num_labels t;
     learning_rate := learning_rate t; num_train_epochs := num_train_epochs t;
     optim := optim t; bf16 := bf16 t; logging_strategy := logging_strategy t;
     logging_steps := logging_steps t; eval_strategy := eval_strategy t;
     eval_steps := eval_steps t; save_strategy := save_strategy t;
     save_steps := save_steps t; per_device_batch_size := per_device_batch_size t;
     gradient_accumulation_steps := gradient_accumulation_steps t;
     train_seed := train_seed t; device_map := device_map t;
     tokenizer := Some v; model := model t; trainer := trainer t |}.

Definition with_model (t : reward_trainer) (v : model_t) : reward_trainer :=
  {| cls := cls t; model_name := model_name t; tokenize_loader := tokenize_loader t;
     output_dir := output_dir t; num_labels := num_labels t;
     learning_rate := learning_rate t; num_train_epochs := num_train_epochs t;
     optim := optim t; bf16 := bf16 t; logging_strategy := logging_strategy t;
     logging_steps := logging_steps t; eval_strategy := eval_strategy t;
     eval_steps := eval_steps t; save_strategy := save_strategy t;
     save_steps := save_steps t; per_device_batch_size := per_device_batch_size t;
     gradient_accumulation_steps := gradient_accumulation_steps t;
     train_seed := train_seed t; device_map := device_map t;
     tokenizer := tokenizer t; model := Some v; trainer := trainer t |}.

Definition with_trainer (t : reward_trainer) (v : Trainer) : reward_trainer :=
  {| cls := cls t; model_name := model_name t; tokenize_loader := tokenize_loader t;
     output_dir := output_dir t; num_labels := num_labels t;
     learning_rate := learning_rate t; num_train_epochs := num_train_epochs t;
     optim := optim t; bf16 := bf16 t; logging_strategy := logging_strategy t;
     logging_steps := logging_steps t; eval_strategy := eval_strategy t;
     eval_steps := eval_steps t; save_strategy := save_strategy t;
     save_steps := save_steps t; per_device_batch_size := per_device_batch_size t;
     gradient_accumulation_steps := gradient_accumulation_steps t;
     train_seed := train_seed t; device_map := device_map t;
     tokenizer := tokenizer t; model := model t; trainer := Some v |}.

(** ** The methods of [BaseRewardTrainer] and of its two subclasses *)

(** Property [training_config]. *)
Definition training_config : M TrainingArguments :=
  self ← get_self;
  mret {| ta_output_dir := output_dir self;
          ta_learning_rate := learning_rate self;
          ta_num_train_epochs := num_train_epochs self;
          ta_logging_dir := (output_dir self ++ "/logs")%string;
          ta_logging_strategy := logging_strategy self;
          ta_logging_steps := logging_steps self;
          ta_evaluation_strategy := eval_strategy self;
          ta_eval_steps := eval_steps self;
          ta_save_strategy := save_strategy self;
          ta_save_steps := save_steps self;
          ta_bf16 := bf16 self;
          ta_optim := optim self;
          ta_logging_first_step := VBool false;
          ta_seed := train_seed self;
          ta_per_device_train_batch_size := per_device_batch_size self;
          ta_per_device_eval_batch_size := per_device_batch_size self;
          ta_gradient_accumulation_steps := gradient_accumulation_steps self |}.

(** [save(path=None)] *)
Definition save (path : value) : M unit :=
  self ← get_self;
  let save_path := py_or path (VStr (output_dir self)) in
  m ← getattr "model" model;
  emit (save_pretrained m save_path).

(** [push_to_hub(hf_path, private=True)] *)
Definition push_to_hub (hf_path private : value) : M unit :=
  m ← getattr "model" model;
  emit (model_push_to_hub m hf_path private);;
  t ← getattr "tokenizer" tokenizer;
  emit (tokenizer_push_to_hub t hf_path private).

Definition instantiate_reward_model : M unit :=
  self ← get_self;
  let m := {| pretrained_name := model_name self;
              head_num_labels := num_labels self;
              problem_type := _training_task (cls self);
              placement := device_map self |} in
  emit (from_pretrained m);;
  self ← get_self;
  set_self (with_model self m).

Definition instantiate_reward_trainer (data : loc) : M unit :=
  eval_dataset ← get_dict data "validation";
  m ← getattr "model" model;
  args ← training_config;
  tok ← getattr "tokenizer" tokenizer;
  train_dataset ← getitem_dict data "train";
  self ← get_self;
  set_self (with_trainer self
              {| tr_model := m;
                 tr_args := args;
                 tr_tokenizer := tok;
                 tr_train_dataset := train_dataset;
                 tr_eval_dataset := eval_dataset |}).

(** [RewardClassificationTrainer._format_one_hot_labels]: it reads
    [self.num_labels] and builds new tables. *)
Definition _format_one_hot_labels (self : reward_trainer) (df : table) : result table :=
  col ← getitem df "labels";
  labels ← np_array col;
  py_assert (Z.of_nat (length (np_unique labels)) <=? num_labels self)%Z;;
  eye ← np_eye (num_labels self);
  one_hot_labels ← np_take eye labels;
  df ← remove_columns df "labels";
  df ← add_column df "labels" one_hot_labels;
  Ok df.

(** Body of the loop of the classification hook, for the item [(fold, df)] of
    the mapping [data].  Tables are values; the table stored into the mapping
    is allocated as a new object, the intermediate ones are never referred
    to. *)
Definition format_fold (data : loc) (fold : string) (df : loc) : M unit :=
  tbl ← read_table df;
  col ← lift (getitem tbl "labels");
  arr ← lift (np_array col);
  if Nat.eqb (ndim arr) 1 then
    let tbl := format_dataset_dtype tbl "labels" "int64" in
    self ← get_self;
    tbl ← lift (_format_one_hot_labels self tbl);
    new_df ← alloc (OTable tbl);
    setitem_dict data fold new_df
  else mret tt.

(** [for fold, df in data.items(): body]: the items view is live, item [i] is
    read from the dictionary as it is when the iterator reaches it.  The
    bodies run here assign to existing keys only, so the number of items [n]
    found when the loop starts is the number of iterations. *)
Fixpoint for_items (body : string -> loc -> M unit) (data : loc) (i n : nat) : M unit :=
  match n with
  | 0 => mret tt
  | S n' =>
      items ← read_dict data;
      match items !! i with
      | None => mret tt
      | Some (fold, df) => body fold df;; for_items body data (S i) n'
      end
  end.

(** Modelled from the spec: [utils.format_dataset_dtype(data, name, dtype)]
    applied to a whole fold mapping, as the regression trainer calls it.  The
    spec says the regression variant casts the "labels" column of every fold
    and does nothing else; the result is a new mapping of new tables. *)
Fixpoint cast_folds (name dtype : string) (items : list (string * loc))
    : M (list (string * loc)) :=
  match items with
  | [] => mret []
  | (fold, df) :: rest =>
      tbl ← read_table df;
      df' ← alloc (OTable (format_dataset_dtype tbl name dtype));
      rest' ← cast_folds name dtype rest;
      mret ((fold, df') :: rest')
  end.

(** Modelled from the spec: the same helper on a mapping; it reads the
    items, casts the table of every fold and returns a new mapping. *)
Definition format_mapping_dtype (data : loc) (name dtype : string) : M loc :=
  items ← read_dict data;
  items' ← cast_folds name dtype items;
  alloc (ODict items').

(** The formatting hook, dispatched on the class of [self]. *)
Definition _format_data_by_training_task (data : loc) : M loc :=
  self ← get_self;
  match cls self with
  | BaseRewardTrainer => lift (Raise NotImplementedError)
  | RewardRegressionTrainer => format_mapping_dtype data "labels" "float"
  | RewardClassificationTrainer =>
      data ← copy_copy data;
      items ← read_dict data;
      for_items (format_fold data) data 0 (length items);;
      mret data
  end.

(** [fit(data)] *)
Definition fit (data : loc) : M unit :=
  self ← get_self;
  tok ← lift (load (tokenize_loader self));
  set_self (with_tokenizer self tok);;
  data ← _format_data_by_training_task data;
  instantiate_reward_model;;
  instantiate_reward_trainer data;;
  engine ← getattr "trainer" trainer;
  emit (train engine).

(** * Notions used to state the properties *)

(** [np.unique] returns a strictly increasing list. *)
Fixpoint increasing (l : list Z) : Prop :=
  match l with
  | [] => True
  | x :: r => Forall (fun y => (x < y)%Z) r /\ increasing r
  end.

(** The one-hot vector of label [z] among [n] classes, as a cell. *)
Definition one_hot (n : Z) (z : Z) : cell :=
  CList (map CInt (eye_row (Z.to_nat n) (Z.to_nat z))).

(** The table [_format_one_hot_labels] builds from [df] and the one-hot cells. *)
Definition relabelled (df : table) (cells : list cell) : table :=
  filter (fun c => fst c ≠ "labels") df
    ++ [("labels", {| col_dtype := "int64"; col_data := cells |})].

(** What the loop body computes from the object a fold refers to: an
    exception, nothing to store ([None], the fold is left alone) or the table
    to store. *)
Definition fold_outcome (self : reward_trainer) (o : option obj) : result (option table) :=
  match o with
  | Some (OTable tbl) =>
      col ← getitem tbl "labels";
      arr ← np_array col;
      if Nat.eqb (ndim arr) 1 then
        tbl' ← _format_one_hot_labels self (format_dataset_dtype tbl "labels" "int64");
        Ok (Some tbl')
      else Ok None
  | _ => Raise TypeError
  end.

(** The loop over the items [todo], told on the heap [h] the loop starts
    from: the outcome, the items as the loop leaves them and the tables it
    allocates, the first of them at address [a]. *)
Fixpoint run_folds (self : reward_trainer) (h : list obj) (a : loc)
    (todo : list (string * loc)) : result unit * list (string * loc) * list obj :=
  match todo with
  | [] => (Ok tt, [], [])
  | (fold, df) :: rest =>
      match fold_outcome self (h !! df) with
      | Raise e => (Raise e, todo, [])
      | Ok None =>
          let '(r, rest', news) := run_folds self h a rest in
          (r, (fold, df) :: rest', news)
      | Ok (Some tbl) =>
          let '(r, rest', news) := run_folds self h (S a) rest in
          (r, (fold, a) :: rest', OTable tbl :: news)
      end
  end.

(** The constructor arguments as they are stored on an instance. *)
Definition hyperparameters (t : reward_trainer) : Args.t :=
  {| Args.model_name := model_name t;
     Args.tokenize_loader := tokenize_loader t;
     Args.output_dir := output_dir t;
     Args.num_labels := num_labels t;
     Args.learning_rate := learning_rate t;
     Args.num_train_epochs := num_train_epochs t;
     Args.optim := optim t;
     Args.bf16 := bf16 t;
     Args.logging_strategy := logging_strategy t;
     Args.logging_steps := logging_steps t;
     Args.eval_strategy := eval_strategy t;
     Args.eval_steps := eval_steps t;
     Args.save_strategy := save_strategy t;
     Args.save_steps := save_steps t;
     Args.per_device_batch_size := per_device_batch_size t;
     Args.gradient_accumulation_steps := gradient_accumulation_steps t;
     Args.train_seed := train_seed t;
     Args.device_map := device_map t |}.

(** A call of one of the methods of the module. *)
Inductive call :=
| call_fit (data : loc)
| call_save (path : value)
| call_push_to_hub (hf_path private : value)
| call_instantiate_reward_model
| call_instantiate_reward_trainer (data : loc)
| call_format_data (data : loc)
| call_training_config.

Definition run_call (c : call) : M unit :=
  match c with
  | call_fit data => fit data
  | call_save path => save path
  | call_push_to_hub hf_path private => push_to_hub hf_path private
  | call_instantiate_reward_model => instantiate_reward_model
  | call_instantiate_reward_trainer data => instantiate_reward_trainer data
  | call_format_data data => _ ← _format_data_by_training_task data; mret tt
  | call_training_config => _ ← training_config; mret tt
  end.

(** A client that makes the calls one after the other and goes on after an
    exception. *)
Fixpoint run_calls (cs : list call) (s : state) : state :=
  match cs with
  | [] => s
  | c :: rest => run_calls rest (run_call c s).2
  end.

(** The program [t = cls(...); t.fit(data)] run on heap [h] and log [lg]. *)
Definition instantiate_and_fit (c : trainer_cls) (a : Args.t) (data : loc)
    (h : list obj) (lg : list event) : result unit * list obj * list event :=
  match new c a with
  | Raise e => (Raise e, h, lg)
  | Ok t =>
      let '(r, s) := fit data {| self := t; heap := h; log := lg |} in
      (r, heap s, log s)
  end.

(** A computation that leaves [self] as it found it. *)
Definition keeps_self {A : Type} (m : M A) : Prop := forall s, self (m s).2 = self s.

(** A computation that leaves the class and the hyperparameters of [self]
    as it found them. *)
Definition keeps_hyperparameters {A : Type} (m : M A) : Prop :=
  forall s, cls (self (m s).2) = cls (self s)
            /\ hyperparameters (self (m s).2) = hyperparameters (self s).

(** The "labels" column of [df] is flat: one integer per example. *)
Definition flat_labels (df : table) (ls : list Z) : Prop :=
  getitem df "labels" = Ok (map CInt ls).

(** The "labels" column of [df] is an array of two or more dimensions. *)
Definition multi_dimensional_labels (df : table) : Prop :=
  exists col arr,
    getitem df "labels" = Ok col /\ np_array col = Ok arr /\ 1 < ndim arr.

(** The list [ls] holds more than [n] distinct values. *)
Definition more_distinct_than (n : Z) (ls : list Z) : Prop :=
  exists vs, NoDup vs /\ (forall x, x ∈ vs -> x ∈ ls) /\ (n < Z.of_nat (length vs))%Z.

(** ** Sample inputs *)

Definition sample_loader : loader := {| load := Ok (Tokenizer "tokenizer") |}.

(** The defaults of the constructor, but for the number of labels. *)
Definition sample_args (n : Z) : Args.t :=
  let a := Args.defaults (VStr "gpt2") sample_loader "out" in
  {| Args.model_name := Args.model_name a;
     Args.tokenize_loader := Args.tokenize_loader a;
     Args.output_dir := Args.output_dir a;
     Args.num_labels := n;
     Args.learning_rate := Args.learning_rate a;
     Args.num_train_epochs := Args.num_train_epochs a;
     Args.optim := Args.optim a;
     Args.bf16 := Args.bf16 a;
     Args.logging_strategy := Args.logging_strategy a;
     Args.logging_steps := Args.logging_steps a;
     Args.eval_strategy := Args.eval_strategy a;
     Args.eval_steps := Args.eval_steps a;
     Args.save_strategy := Args.save_strategy a;
     Args.save_steps := Args.save_steps a;
     Args.per_device_batch_size := Args.per_device_batch_size a;
     Args.gradient_accumulation_steps := Args.gradient_accumulation_steps a;
     Args.train_seed := Args.train_seed a;
     Args.device_map := Args.device_map a |}.

(** A tokenized table with the given "labels" column. *)
Definition sample_table (labels : list cell) : table :=
  [("input_ids", {| col_dtype := "int32";
                    col_data := map (fun _ => CList [CInt 101; CInt 102]) labels |});
   ("labels", {| col_dtype := "int32"; col_data := labels |})].

(** A trainer of class [c] with [n] labels, in front of the heap [h]. *)
Definition sample_state (c : trainer_cls) (n : Z) (h : list obj) : state :=
  {| self := __init__ c (sample_args n); heap := h; log := [] |}.

(** ** Notions for the further properties *)

(** The one-hot cell NumPy's index rule gives for a label [z] with
    [-n <= z < n]: a negative label counts from the end. *)
Definition one_hot_wrapped (n z : Z) : cell :=
  one_hot n (if (z <? 0)%Z then (z + n)%Z else z).

(** A computation all of whose runs relate the state they start from to
    the state they end in (by return or by exception). *)
Definition maintains (R : relation state) {A : Type} (m : M A) : Prop :=
  forall s, R s (m s).2.

(** The log is as it was. *)
Definition same_log : relation state := fun s s' => log s' = log s.

(** The heap is as it was. *)
Definition same_heap : relation state := fun s s' => heap s' = heap s.

(** Every object below address [k] is as it was. *)
Definition extends_from (k : nat) : relation state := fun s s' =>
  k <= length (heap s) ->
  k <= length (heap s') /\ forall l : loc, l < k -> heap s' !! l = heap s !! l.

(** ** Further sample inputs *)

(** A loader whose [load()] raises. *)
Definition failing_loader : loader := {| load := Raise ValueError |}.

(** The sample arguments with the failing loader. *)
Definition failing_loader_args : Args.t :=
  let a := sample_args 3 in
  {| Args.model_name := Args.model_name a;
     Args.tokenize_loader := failing_loader;
     Args.output_dir := Args.output_dir a;
     Args.num_labels := Args.num_labels a;
     Args.learning_rate := Args.learning_rate a;
     Args.num_train_epochs := Args.num_train_epochs a;
     Args.optim := Args.optim a;
     Args.bf16 := Args.bf16 a;
     Args.logging_strategy := Args.logging_strategy a;
     Args.logging_steps := Args.logging_steps a;
     Args.eval_strategy := Args.eval_strategy a;
     Args.eval_steps := Args.eval_steps a;
     Args.save_strategy := Args.save_strategy a;
     Args.save_steps := Args.save_steps a;
     Args.per_device_batch_size := Args.per_device_batch_size a;
     Args.gradient_accumulation_steps := Args.gradient_accumulation_steps a;
     Args.train_seed := Args.train_seed a;
     Args.device_map := Args.device_map a |}.

(** A table without a "labels" column. *)
Definition unlabelled_table : table :=
  [("input_ids", {| col_dtype := "int32"; col_data := [CList [CInt 101; CInt 102]] |})].

(** * Properties *)

(** ** NumPy operations *)

Section NumPy.

Implicit Types (l ls vs : list Z) (z x y : Z) (n i : nat).

Lemma elem_of_insert_unique x z l :
  x ∈ insert_unique z l <-> x = z \/ x ∈ l.
Proof.
  induction l as [|y r IH]; simpl.
  - rewrite list_elem_of_singleton. split; [auto | intros [?|H]; [done | inversion H]].
  - destruct (Z.ltb_spec z y) as [Hlt|Hge].
    + rewrite !elem_of_cons. tauto.
    + destruct (Z.eqb_spec z y) as [->|Hne].
      * rewrite elem_of_cons. tauto.
      * rewrite !elem_of_cons, IH. tauto.
Qed.

Lemma insert_unique_increasing z l :
  increasing l -> increasing (insert_unique z l).
Proof.
  induction l as [|y r IH]; simpl.
  - auto.
  - intros [Hy Hr].
    destruct (Z.ltb_spec z y) as [Hlt|Hge].
    + simpl. repeat split; auto.
      constructor; [done|].
      eapply Forall_impl; [exact Hy|]. simpl. intros; lia.
    + destruct (Z.eqb_spec z y) as [->|Hne].
      * simpl; auto.
      * simpl. split; [|auto].
        apply Forall_forall. intros x Hx.
        apply elem_of_insert_unique in Hx as [->|Hx]; [lia|].
        rewrite Forall_forall in Hy. auto.
Qed.

Lemma increasing_NoDup l : increasing l -> NoDup l.
Proof.
  induction l as [|x r IH]; simpl.
  - constructor.
  - intros [Hx Hr]. constructor; [|auto].
    intros Hin. rewrite Forall_forall in Hx. specialize (Hx _ Hin). lia.
Qed.

Lemma foldr_insert_unique_increasing l : increasing (foldr insert_unique [] l).
Proof.
  induction l; simpl; [exact I | by apply insert_unique_increasing].
Qed.

Lemma elem_of_foldr_insert_unique x l :
  x ∈ foldr insert_unique [] l <-> x ∈ l.
Proof.
  induction l as [|y r IH]; simpl; [done|].
  rewrite elem_of_insert_unique, elem_of_cons, IH. done.
Qed.

(** The number of values [np.unique] returns is the number of distinct
    values of the array: it bounds, and is bounded by, the length of every
    duplicate-free list drawn from the array. *)
Lemma np_unique_NoDup a : NoDup (np_unique a).
Proof. apply increasing_NoDup, foldr_insert_unique_increasing. Qed.

Lemma elem_of_np_unique x a :
  x ∈ np_unique a <-> x ∈ leaves (CList (nd_items a)).
Proof. apply elem_of_foldr_insert_unique. Qed.

Lemma np_unique_distinct a vs :
  NoDup vs -> (forall x, x ∈ vs -> x ∈ leaves (CList (nd_items a))) ->
  length vs <= length (np_unique a).
Proof.
  intros Hnd Hsub. apply submseteq_length, NoDup_submseteq; [done|].
  intros x Hx. apply elem_of_np_unique; auto.
Qed.

Lemma np_unique_bounded a (n : Z) :
  (forall x, x ∈ leaves (CList (nd_items a)) -> (0 <= x < n)%Z) ->
  (Z.of_nat (length (np_unique a)) <= Z.max 0 n)%Z.
Proof.
  intros Hb.
  assert (np_unique a ⊆+ seqZ 0 (Z.max 0 n)) as Hs.
  { apply NoDup_submseteq; [apply np_unique_NoDup|].
    intros x Hx. apply elem_of_np_unique, Hb in Hx.
    apply elem_of_seqZ. lia. }
  apply submseteq_length in Hs. rewrite length_seqZ in Hs. lia.
Qed.

(** A flat list of integers is a one-dimensional array. *)
Lemma leaves_flat ls : leaves (CList (map CInt ls)) = ls.
Proof.
  simpl. induction ls as [|z r IH]; simpl; [done | by rewrite IH].
Qed.

Lemma cell_shape_flat ls : cell_shape (CList (map CInt ls)) = Some [length ls].
Proof.
  simpl. rewrite map_map. simpl.
  destruct ls as [|z r]; simpl; [done|].
  rewrite length_map.
  replace (forallb _ _) with true; [done|].
  symmetry. apply forallb_forall. intros o Ho.
  apply in_map_iff in Ho as (? & <- & _). by apply bool_decide_eq_true.
Qed.

Lemma np_array_flat ls :
  np_array (map CInt ls) =
  Ok {| nd_dtype := match ls with [] => float64 | _ :: _ => int64 end;
        nd_shape := [length ls];
        nd_items := map CInt ls |}.
Proof.
  unfold np_array. rewrite cell_shape_flat, leaves_flat. done.
Qed.

(** Rows of the identity matrix. *)
Lemma length_eye_row n i : length (eye_row n i) = n.
Proof. unfold eye_row. by rewrite length_map, length_seq. Qed.

Lemma lookup_eye_row n i j :
  j < n -> eye_row n i !! j = Some (if Nat.eqb i j then 1%Z else 0%Z).
Proof.
  intros Hj. unfold eye_row.
  change (map ?f ?l) with (f <$> l).
  rewrite list_lookup_fmap, lookup_seq_lt by done. done.
Qed.

Lemma np_eye_nonneg (n : Z) :
  (0 <= n)%Z -> np_eye n = Ok (map (eye_row (Z.to_nat n)) (seq 0 (Z.to_nat n))).
Proof. intros Hn. unfold np_eye. destruct (Z.ltb_spec n 0); [lia | done]. Qed.

Lemma np_row_eye n z :
  (0 <= z < Z.of_nat n)%Z ->
  np_row (map (eye_row n) (seq 0 n)) z = Ok (eye_row n (Z.to_nat z)).
Proof.
  intros Hz. unfold np_row. rewrite length_map, length_seq.
  destruct (Z.leb_spec (- Z.of_nat n) z); [|lia].
  destruct (Z.ltb_spec z (Z.of_nat n)); [|lia]. simpl.
  destruct (Z.ltb_spec z 0); [lia|].
  change (map ?f ?l) with (f <$> l).
  rewrite list_lookup_fmap, lookup_seq_lt by lia. done.
Qed.

Lemma np_row_out_of_range m z :
  (z < - Z.of_nat (length m) \/ Z.of_nat (length m) <= z)%Z ->
  np_row m z = Raise IndexError.
Proof.
  intros Hz. unfold np_row.
  destruct (Z.leb_spec (- Z.of_nat (length m)) z); simpl; [|done].
  destruct (Z.ltb_spec z (Z.of_nat (length m))); [lia | done].
Qed.

(** [np.argmax] of a one-hot row is the position of its [1]. *)
Lemma argmax_from_zeros best besti i l :
  Forall (fun x => (x <= best)%Z) l -> argmax_from best besti i l = besti.
Proof.
  revert i. induction l as [|x r IH]; intros i Hl; simpl; [done|].
  inversion Hl; subst.
  destruct (Z.ltb_spec best x); [lia | auto].
Qed.

Lemma argmax_from_one_hot k besti i :
  forall n j, j < n ->
  argmax_from 0 besti i
    (map (fun c => if Nat.eqb k c then 1%Z else 0%Z) (seq (k - j) n)) = i + j
  \/ k < j.
Proof.
  intros n. revert besti i. induction n as [|n IH]; intros besti i j Hj; [lia|].
  destruct (decide (k < j)) as [|Hkj]; [by right|]. left. simpl.
  destruct j as [|j].
  - rewrite Nat.sub_0_r, Nat.eqb_refl. simpl.
    rewrite argmax_from_zeros; [lia|].
    apply Forall_forall. intros x Hx.
    apply list_elem_of_In, in_map_iff in Hx as (c & <- & _).
    destruct (Nat.eqb k c); lia.
  - destruct (Nat.eqb_spec k (k - S j)) as [Heq|_]; [lia|]. simpl.
    replace (S (k - S j)) with (k - j) by lia.
    destruct (IH besti (S i) j) as [->|]; lia.
Qed.

Lemma np_argmax_eye_row n i : i < n -> np_argmax (eye_row n i) = i.
Proof.
  intros Hi. unfold eye_row, np_argmax.
  destruct n as [|n]; [lia|].
  destruct i as [|i].
  - simpl. apply argmax_from_zeros, Forall_forall. intros x Hx.
    apply list_elem_of_In, in_map_iff in Hx as (c & <- & Hc).
    apply in_seq in Hc. destruct c; [lia | simpl; lia].
  - change (seq 0 (S n)) with (0 :: seq 1 n).
    rewrite map_cons. change (Nat.eqb (S i) 0) with false. cbv iota.
    destruct (argmax_from_one_hot (S i) 0 1 n i) as [H|]; [lia| |lia].
    replace (S i - i) with 1 in H by lia. rewrite H. lia.
Qed.

End NumPy.

(** ** Tables *)

Section Tables.

Implicit Types (df : table) (name dtype : string) (data : list cell).

Lemma has_column_cast df name dtype name' :
  has_column (format_dataset_dtype df name dtype) name' = has_column df name'.
Proof.
  unfold has_column, format_dataset_dtype.
  induction df as [|[k c] r IH]; simpl; [done|].
  rewrite IH. by destruct (String.eqb k name).
Qed.

Lemma getitem_cast df name dtype name' :
  getitem (format_dataset_dtype df name dtype) name' = getitem df name'.
Proof.
  unfold getitem, format_dataset_dtype.
  induction df as [|[k c] r IH]; simpl; [done|].
  destruct (String.eqb k name); simpl; destruct (String.eqb k name'); simpl; auto.
Qed.

Lemma getitem_has_column df name data :
  getitem df name = Ok data -> has_column df name = true.
Proof.
  unfold getitem, has_column.
  induction df as [|[k c] r IH]; simpl; [done|].
  destruct (String.eqb k name); simpl; auto.
Qed.

Lemma has_column_removed df name :
  has_column (filter (fun c => fst c ≠ name) df) name = false.
Proof.
  unfold has_column.
  induction df as [|[k c] r IH]; [done|].
  rewrite filter_cons. case_decide as Hk; simpl in *; [|done].
  rewrite IH. destruct (String.eqb_spec k name); done.
Qed.

Lemma getitem_added df name col :
  has_column df name = false ->
  getitem (df ++ [(name, col)]) name = Ok (col_data col).
Proof.
  unfold getitem, has_column.
  induction df as [|[k c] r IH]; simpl.
  - by rewrite String.eqb_refl.
  - destruct (String.eqb k name); simpl; [done | auto].
Qed.

(** Columns other than the replaced one keep their name, dtype and cells. *)
Lemma getitem_other df name name' col :
  name' ≠ name ->
  getitem (filter (fun c => fst c ≠ name) df ++ [(name, col)]) name' = getitem df name'.
Proof.
  intros Hne. unfold getitem.
  induction df as [|[k c] r IH].
  - simpl. destruct (String.eqb_spec name name'); [congruence | done].
  - rewrite filter_cons. case_decide as Hk; simpl in *.
    + destruct (String.eqb k name'); simpl; auto.
    + subst k.
      destruct (String.eqb_spec name name'); [congruence | auto].
Qed.

End Tables.

(** ** One-hot expansion of a flat "labels" column *)

Section OneHot.

Variable self : reward_trainer.
Implicit Types (df : table) (ls : list Z).

Lemma mapM_take_rows_in_range (n : nat) ls :
  Forall (fun z => (0 <= z < Z.of_nat n)%Z) ls ->
  mapM (take_rows (map (eye_row n) (seq 0 n))) (map CInt ls)
  = Ok (map (one_hot (Z.of_nat n)) ls).
Proof.
  induction 1 as [|z r Hz _ IH]; simpl; [done|].
  rewrite np_row_eye by done. simpl. rewrite IH.
  unfold one_hot. by rewrite Nat2Z.id.
Qed.

Lemma mapM_take_rows_out_of_range m ls z :
  z ∈ ls ->
  (z < - Z.of_nat (length m) \/ Z.of_nat (length m) <= z)%Z ->
  mapM (take_rows m) (map CInt ls) = Raise IndexError.
Proof.
  intros Hin Hz. induction ls as [|y r IH]; [by inversion Hin|].
  simpl. unfold np_row at 1.
  destruct ((- Z.of_nat (length m) <=? y)%Z && (y <? Z.of_nat (length m))%Z) eqn:Hy;
    [|done].
  destruct (m !! _); simpl; [|done].
  apply elem_of_cons in Hin as [->|Hin].
  - apply andb_true_iff in Hy as [H1%Z.leb_le H2%Z.ltb_lt]. lia.
  - by rewrite IH.
Qed.

(** The assertion fails as soon as the column has more distinct values than
    [num_labels]. *)
Lemma one_hot_labels_too_many df ls :
  getitem df "labels" = Ok (map CInt ls) ->
  (num_labels self < Z.of_nat (length (foldr insert_unique [] ls)))%Z ->
  _format_one_hot_labels self df = Raise AssertionError.
Proof.
  intros Hcol Hn. unfold _format_one_hot_labels.
  rewrite Hcol. simpl. rewrite np_array_flat. simpl.
  unfold np_unique. simpl nd_items. rewrite leaves_flat.
  destruct (Z.leb_spec (Z.of_nat (length (foldr insert_unique [] ls))) (num_labels self));
    [lia | done].
Qed.

(** Every label in range, at least one label: the column is replaced by the
    one-hot vectors. *)
Lemma one_hot_labels_in_range df ls :
  getitem df "labels" = Ok (map CInt ls) ->
  ls ≠ [] ->
  Forall (fun z => (0 <= z < num_labels self)%Z) ls ->
  _format_one_hot_labels self df
  = Ok (relabelled df (map (one_hot (num_labels self)) ls)).
Proof.
  intros Hcol Hne Hls. unfold _format_one_hot_labels.
  assert (match ls with [] => float64 | _ :: _ => int64 end = int64) as Hd
    by (by destruct ls).
  rewrite Hcol. simpl. rewrite np_array_flat, Hd. simpl.
  assert (0 <= num_labels self)%Z as Hn.
  { destruct ls as [|z r]; [done|]. inversion Hls; lia. }
  pose proof (np_unique_bounded
    {| nd_dtype := int64; nd_shape := [length ls]; nd_items := map CInt ls |}
    (num_labels self)) as Hu.
  simpl nd_items in Hu. rewrite leaves_flat in Hu.
  unfold np_unique at 1. simpl nd_items. rewrite leaves_flat.
  unfold np_unique in Hu. simpl nd_items in Hu. rewrite leaves_flat in Hu.
  destruct (Z.leb_spec (Z.of_nat (length (foldr insert_unique [] ls))) (num_labels self))
    as [_|Hgt].
  2:{ exfalso. rewrite Forall_forall in Hls.
      specialize (Hu (fun x Hx => Hls x Hx)). lia. }
  simpl. rewrite np_eye_nonneg by done. simpl.
  unfold np_take. simpl nd_dtype. simpl nd_items.
  rewrite mapM_take_rows_in_range.
  2:{ eapply Forall_impl; [exact Hls|]. simpl. intros; lia. }
  rewrite Z2Nat.id by done. simpl.
  unfold remove_columns. rewrite (getitem_has_column _ _ _ Hcol). simpl.
  unfold add_column. rewrite has_column_removed. done.
Qed.

(** An empty column passes the assertion for every non-negative
    [num_labels], and is then refused as an index array. *)
Lemma one_hot_labels_empty df :
  getitem df "labels" = Ok [] ->
  (0 <= num_labels self)%Z ->
  _format_one_hot_labels self df = Raise IndexError.
Proof.
  intros Hcol Hn. unfold _format_one_hot_labels.
  rewrite Hcol. simpl. change (Z.of_nat 0) with 0%Z.
  destruct (Z.leb_spec 0 (num_labels self)); [|lia]. simpl.
  rewrite np_eye_nonneg by done. done.
Qed.

(** A label outside [-num_labels, num_labels) that gets past the assertion
    makes the indexing raise. *)
Lemma one_hot_labels_out_of_range df ls z :
  getitem df "labels" = Ok (map CInt ls) ->
  (Z.of_nat (length (foldr insert_unique [] ls)) <= num_labels self)%Z ->
  z ∈ ls ->
  (z < - num_labels self \/ num_labels self <= z)%Z ->
  _format_one_hot_labels self df = Raise IndexError.
Proof.
  intros Hcol Hu Hin Hz. unfold _format_one_hot_labels.
  assert (match ls with [] => float64 | _ :: _ => int64 end = int64) as Hd
    by (destruct ls; [by inversion Hin | done]).
  rewrite Hcol. simpl. rewrite np_array_flat, Hd. simpl.
  unfold np_unique. simpl nd_items. rewrite leaves_flat.
  destruct (Z.leb_spec (Z.of_nat (length (foldr insert_unique [] ls))) (num_labels self));
    [|lia].
  simpl. rewrite np_eye_nonneg by lia. simpl.
  unfold np_take. simpl nd_dtype. simpl nd_items.
  erewrite mapM_take_rows_out_of_range; [done | exact Hin |].
  rewrite length_map, length_seq, Z2Nat.id by lia. done.
Qed.

End OneHot.

(** ** The loop of the classification hook *)

Section Loop.

Implicit Types (h news : list obj) (items todo seen : list (string * loc)).

Lemma dict_set_middle seen fold v v' todo :
  fold ∉ map fst seen ->
  dict_set fold v' (seen ++ (fold, v) :: todo) = seen ++ (fold, v') :: todo.
Proof.
  induction seen as [|[k w] r IH]; simpl; intros Hk.
  - by rewrite String.eqb_refl.
  - apply not_elem_of_cons in Hk as [Hne Hk].
    destruct (String.eqb_spec k fold); [congruence|].
    by rewrite IH.
Qed.

Lemma format_fold_step (d : loc) items fold (df : loc) s :
  heap s !! d = Some (ODict items) ->
  format_fold d fold df s =
  match fold_outcome (self s) (heap s !! df) with
  | Raise e => (Raise e, s)
  | Ok None => (Ok tt, s)
  | Ok (Some tbl) =>
      (Ok tt, {| self := self s;
                 heap := <[d := ODict (dict_set fold (length (heap s)) items)]>
                           (heap s ++ [OTable tbl]);
                 log := log s |})
  end.
Proof.
  intros Hd. unfold format_fold, fold_outcome, read_table, mbind, M_bind.
  destruct (heap s !! df) as [[tbl|?]|]; try done.
  unfold lift. destruct (getitem tbl "labels") as [col|e]; simpl; [|done].
  destruct (np_array col) as [arr|e]; simpl; [|done].
  destruct (Nat.eqb (ndim arr) 1); [|done].
  unfold get_self. simpl.
  destruct (_format_one_hot_labels _ _) as [tbl'|e]; simpl; [|done].
  unfold setitem_dict, alloc. simpl.
  rewrite lookup_app_l by (by eapply lookup_lt_Some).
  by rewrite Hd.
Qed.

Lemma run_folds_ext self h h' a todo :
  Forall (fun kv => h' !! kv.2 = h !! kv.2) todo ->
  run_folds self h' a todo = run_folds self h a todo.
Proof.
  revert a. induction todo as [|[fold df] r IH]; intros a Hr; simpl; [done|].
  inversion Hr as [|? ? Hdf Hr']; subst. simpl in Hdf. rewrite Hdf.
  destruct (fold_outcome self (h !! df)) as [[tbl|]|e]; [| |done].
  - by rewrite IH.
  - by rewrite IH.
Qed.

(** The loop as it runs (items read from the live dictionary at [d], tables
    allocated behind [news]) computes what [run_folds] tells. *)
Lemma for_items_run h (d : loc) t lg :
  d < length h ->
  forall todo seen news,
    NoDup (map fst (seen ++ todo)) ->
    Forall (fun kv => kv.2 < length h /\ kv.2 ≠ d) todo ->
    for_items (format_fold d) d (length seen) (length todo)
      {| self := t; heap := <[d := ODict (seen ++ todo)]> h ++ news; log := lg |}
    = let '(r, todo', news') := run_folds t h (length h + length news) todo in
      (r, {| self := t;
             heap := <[d := ODict (seen ++ todo')]> h ++ news ++ news';
             log := lg |}).
Proof.
  intros Hd todo. induction todo as [|[fold df] rest IH]; intros seen news Hnd Hrefs.
  - simpl. by rewrite !app_nil_r.
  - inversion Hrefs as [|? ? [Hlt Hne] Hrest]; subst. simpl in Hlt, Hne.
    assert (forall X, (<[d := X]> h ++ news) !! d = Some X) as Hread.
    { intros X. rewrite lookup_app_l by (by rewrite length_insert).
      by apply list_lookup_insert_eq. }
    assert (forall X, (<[d := X]> h ++ news) !! df = h !! df) as Hdf.
    { intros X. rewrite lookup_app_l by (by rewrite length_insert).
      by apply list_lookup_insert_ne. }
    assert (fold ∉ map fst seen) as Hfresh.
    { rewrite map_app in Hnd. apply NoDup_app in Hnd as (_ & Hdisj & _).
      intros Hin. apply (Hdisj _ Hin). simpl. left. }
    cbn [for_items length]. unfold mbind at 1, M_bind at 1, read_dict at 1.
    cbn [heap]. rewrite Hread, list_lookup_middle by done.
    unfold mbind at 1, M_bind at 1.
    erewrite format_fold_step by (cbn [heap]; apply Hread).
    cbn [heap self log]. rewrite Hdf.
    cbn [run_folds].
    destruct (fold_outcome t (h !! df)) as [[tbl|]|e].
    + rewrite dict_set_middle by done.
      rewrite length_app, length_insert.
      rewrite <- app_assoc, insert_app_l by (by rewrite length_insert).
      rewrite list_insert_insert_eq.
      replace (S (length seen))
        with (length (seen ++ [(fold, length h + length news)]))
        by (rewrite length_app; simpl; lia).
      rewrite (cons_middle _ seen rest), (app_assoc seen).
      rewrite (IH _ (news ++ [OTable tbl])); [| |done].
      2:{ rewrite <- app_assoc, map_app. simpl. by rewrite map_app in Hnd. }
      rewrite length_app. simpl.
      replace (length h + (length news + 1)) with (S (length h + length news)) by lia.
      destruct (run_folds t h (S (length h + length news)) rest) as [[r todo'] news'].
      by rewrite <- !app_assoc.
    + replace (S (length seen)) with (length (seen ++ [(fold, df)]))
        by (rewrite length_app; simpl; lia).
      rewrite (cons_middle _ seen rest), (app_assoc seen).
      rewrite (IH _ news); [| |done].
      2:{ by rewrite <- app_assoc. }
      destruct (run_folds t h (length h + length news) rest) as [[r todo'] news'].
      by rewrite <- !app_assoc.
    + by rewrite app_nil_r.
Qed.

End Loop.

(** ** The classification hook as a whole *)

Section ClassificationHook.

Implicit Types (s : state) (items todo : list (string * loc)) (news : list obj).

(** The hook copies the mapping to the next free address and runs the loop
    on the copy. *)
Lemma classification_hook_run s (d : loc) items :
  cls (self s) = RewardClassificationTrainer ->
  heap s !! d = Some (ODict items) ->
  NoDup (map fst items) ->
  Forall (fun kv => kv.2 < length (heap s)) items ->
  _format_data_by_training_task d s =
  let '(r, items', news) :=
    run_folds (self s) (heap s) (S (length (heap s))) items in
  (match r with Ok _ => Ok (length (heap s)) | Raise e => Raise e end,
   {| self := self s; heap := heap s ++ [ODict items'] ++ news; log := log s |}).
Proof.
  intros Hcls Hd Hnd Hrefs.
  unfold _format_data_by_training_task, mbind, M_bind, get_self. rewrite Hcls.
  unfold copy_copy, mbind, M_bind, read_dict, alloc. rewrite Hd. cbn [heap self log].
  rewrite list_lookup_middle by done.
  pose proof (for_items_run (heap s ++ [ODict items]) (length (heap s)) (self s) (log s))
    as Hrun.
  specialize (Hrun ltac:(rewrite length_app; simpl; lia) items [] []).
  rewrite (list_insert_id (heap s ++ [ODict items])), app_nil_r in Hrun
    by (by apply list_lookup_middle).
  simpl length in Hrun. simpl app in Hrun.
  rewrite Hrun; clear Hrun; [|done|].
  2:{ eapply Forall_impl; [exact Hrefs|]. simpl. intros kv Hkv.
      rewrite length_app. simpl. lia. }
  rewrite (run_folds_ext _ (heap s)).
  2:{ eapply Forall_impl; [exact Hrefs|]. simpl. intros kv Hkv.
      by apply lookup_app_l. }
  rewrite length_app, Nat.add_0_r. simpl length. rewrite Nat.add_1_r.
  destruct (run_folds (self s) (heap s) (S (length (heap s))) items) as [[r items'] news].
  rewrite insert_app_r_alt, Nat.sub_diag by done. simpl.
  rewrite <- app_assoc. simpl.
  by destruct r as [[]|e].
Qed.

(** A run of the loop that ends without exception: every item keeps its
    key; it keeps its table when the body left the fold alone and refers to
    a table allocated by the loop otherwise. *)
Lemma run_folds_ok self h (a : loc) todo todo' news :
  run_folds self h a todo = (Ok tt, todo', news) ->
  Forall2 (fun kv kv' =>
    kv'.1 = kv.1 /\
    ((kv'.2 = kv.2 /\ fold_outcome self (h !! kv.2) = Ok None) \/
     (exists tbl, fold_outcome self (h !! kv.2) = Ok (Some tbl) /\
                  a <= kv'.2 /\ news !! (kv'.2 - a) = Some (OTable tbl))))
    todo todo'.
Proof.
  revert a todo' news. induction todo as [|[fold df] rest IH]; intros a todo' news; simpl.
  - intros [= <- <-]. constructor.
  - destruct (fold_outcome self (h !! df)) as [[tbl|]|e] eqn:Hout; [| |done].
    + destruct (run_folds self h (S a) rest) as [[r rest'] news0] eqn:Hrest.
      intros [= -> <- <-]. constructor.
      * simpl. split; [done|]. right. exists tbl. rewrite Nat.sub_diag. auto.
      * eapply Forall2_impl; [by apply IH|].
        intros kv kv' [Hk [Hsame|(tbl' & Ho & Ha & Hn)]]; (split; [done|]); [by left|].
        right. exists tbl'. split; [done|]. split; [lia|].
        replace (kv'.2 - a) with (S (kv'.2 - S a)) by lia. done.
    + destruct (run_folds self h a rest) as [[r rest'] news0] eqn:Hrest.
      intros [= -> <- <-]. constructor; [simpl; auto|].
      by apply IH.
Qed.

(** The loop stops at the first fold whose body raises, with that exception. *)
Lemma run_folds_raise self h (a : loc) pre fold (df : loc) post e :
  Forall (fun kv => exists o, fold_outcome self (h !! kv.2) = Ok o) pre ->
  fold_outcome self (h !! df) = Raise e ->
  (run_folds self h a (pre ++ (fold, df) :: post)).1.1 = Raise e.
Proof.
  intros Hpre Hdf. revert a.
  induction Hpre as [|[k v] pre [o Ho] _ IH]; intros a; simpl.
  - by rewrite Hdf.
  - simpl in Ho. rewrite Ho. destruct o as [tbl|].
    + specialize (IH (S a)).
      by destruct (run_folds self h (S a) (pre ++ (fold, df) :: post)) as [[r rest'] news0].
    + specialize (IH a).
      by destruct (run_folds self h a (pre ++ (fold, df) :: post)) as [[r rest'] news0].
Qed.

(** A fold whose body raises keeps the loop from ending normally. *)
Lemma run_folds_no_result self h (a : loc) todo fold (df : loc) e :
  (fold, df) ∈ todo ->
  fold_outcome self (h !! df) = Raise e ->
  exists e', (run_folds self h a todo).1.1 = Raise e'.
Proof.
  intros Hin Hdf. revert a.
  induction todo as [|[k v] rest IH]; intros a; [by inversion Hin|].
  simpl. destruct (fold_outcome self (h !! v)) as [[tbl|]|e0] eqn:Hv.
  - apply elem_of_cons in Hin as [[= <- <-]|Hin]; [congruence|].
    destruct (IH Hin (S a)) as [e' He'].
    destruct (run_folds self h (S a) rest) as [[r rest'] news0]. eauto.
  - apply elem_of_cons in Hin as [[= <- <-]|Hin]; [congruence|].
    destruct (IH Hin a) as [e' He'].
    destruct (run_folds self h a rest) as [[r rest'] news0]. eauto.
  - eauto.
Qed.

(** With no fold raising, the loop ends normally. *)
Lemma run_folds_total self h (a : loc) todo :
  Forall (fun kv => exists o, fold_outcome self (h !! kv.2) = Ok o) todo ->
  (run_folds self h a todo).1.1 = Ok tt.
Proof.
  intros Hall. revert a.
  induction Hall as [|[k v] rest [o Ho] _ IH]; intros a; simpl; [done|].
  simpl in Ho. rewrite Ho. destruct o as [tbl|].
  - specialize (IH (S a)). by destruct (run_folds self h (S a) rest) as [[r rest'] news0].
  - specialize (IH a). by destruct (run_folds self h a rest) as [[r rest'] news0].
Qed.

End ClassificationHook.

(** ** What the methods leave alone *)

Section Frames.

Lemma keeps_self_ret {A : Type} (a : A) : keeps_self (mret a).
Proof. by intros s. Qed.

Lemma keeps_self_bind {A B : Type} (m : M A) (f : A -> M B) :
  keeps_self m -> (forall a, keeps_self (f a)) -> keeps_self (m ≫= f).
Proof.
  intros Hm Hf s. unfold mbind, M_bind. specialize (Hm s).
  destruct (m s) as [[a|e] s1]; simpl in *; [|done].
  by rewrite Hf.
Qed.

Lemma keeps_self_lift {A : Type} (r : result A) : keeps_self (lift r).
Proof. by intros s. Qed.

Lemma keeps_self_get_self : keeps_self get_self.
Proof. by intros s. Qed.

Lemma keeps_self_alloc o : keeps_self (alloc o).
Proof. by intros s. Qed.

Lemma keeps_self_read_table l : keeps_self (read_table l).
Proof. intros s. unfold read_table. by destruct (heap s !! l) as [[|]|]. Qed.

Lemma keeps_self_read_dict l : keeps_self (read_dict l).
Proof. intros s. unfold read_dict. by destruct (heap s !! l) as [[|]|]. Qed.

Lemma keeps_self_setitem_dict d k v : keeps_self (setitem_dict d k v).
Proof. intros s. unfold setitem_dict. by destruct (heap s !! d) as [[|]|]. Qed.

Lemma keeps_self_format_fold d fold df : keeps_self (format_fold d fold df).
Proof.
  unfold format_fold.
  apply keeps_self_bind; [apply keeps_self_read_table | intros tbl].
  apply keeps_self_bind; [apply keeps_self_lift | intros col].
  apply keeps_self_bind; [apply keeps_self_lift | intros arr].
  destruct (Nat.eqb (ndim arr) 1); [|apply keeps_self_ret].
  apply keeps_self_bind; [apply keeps_self_get_self | intros t].
  apply keeps_self_bind; [apply keeps_self_lift | intros tbl'].
  apply keeps_self_bind; [apply keeps_self_alloc | intros l].
  apply keeps_self_setitem_dict.
Qed.

Lemma keeps_self_for_items body d i n :
  (forall fold df, keeps_self (body fold df)) -> keeps_self (for_items body d i n).
Proof.
  intros Hbody. revert i. induction n as [|n IH]; intros i; simpl.
  - apply keeps_self_ret.
  - apply keeps_self_bind; [apply keeps_self_read_dict | intros items].
    destruct (items !! i) as [[fold df]|]; [|apply keeps_self_ret].
    apply keeps_self_bind; [apply Hbody | intros _; apply IH].
Qed.

Lemma keeps_self_cast_folds name dtype items : keeps_self (cast_folds name dtype items).
Proof.
  induction items as [|[fold df] rest IH]; simpl.
  - apply keeps_self_ret.
  - apply keeps_self_bind; [apply keeps_self_read_table | intros tbl].
    apply keeps_self_bind; [apply keeps_self_alloc | intros l].
    apply keeps_self_bind; [apply IH | intros rest'; apply keeps_self_ret].
Qed.

(** No variant of the formatting hook assigns to [self]. *)
Lemma keeps_self_format_data data : keeps_self (_format_data_by_training_task data).
Proof.
  unfold _format_data_by_training_task.
  intros s. unfold mbind at 1, M_bind at 1, get_self at 1.
  destruct (cls (self s)).
  - done.
  - apply keeps_self_bind; [apply keeps_self_read_dict | intros items].
    apply keeps_self_bind; [apply keeps_self_cast_folds | intros items'].
    apply keeps_self_alloc.
  - apply keeps_self_bind.
    + apply keeps_self_bind; [apply keeps_self_read_dict | intros items].
      apply keeps_self_alloc.
    + intros d. apply keeps_self_bind; [apply keeps_self_read_dict | intros items].
      apply keeps_self_bind; [|intros _; apply keeps_self_ret].
      apply keeps_self_for_items. intros; apply keeps_self_format_fold.
Qed.

Lemma keeps_self_hyperparameters {A : Type} (m : M A) :
  keeps_self m -> keeps_hyperparameters m.
Proof. intros Hm s. by rewrite Hm. Qed.

Lemma keeps_hyperparameters_bind {A B : Type} (m : M A) (f : A -> M B) :
  keeps_hyperparameters m -> (forall a, keeps_hyperparameters (f a)) ->
  keeps_hyperparameters (m ≫= f).
Proof.
  intros Hm Hf s. unfold mbind, M_bind. specialize (Hm s).
  destruct (m s) as [[a|e] s1]; simpl in *; [|done].
  destruct (Hf a s1) as [-> ->]. done.
Qed.

Lemma keeps_self_getattr {A : Type} name (field : reward_trainer -> option A) :
  keeps_self (getattr name field).
Proof. intros s. unfold getattr. by destruct (field (self s)). Qed.

Lemma keeps_self_emit e : keeps_self (emit e).
Proof. by intros s. Qed.

Lemma keeps_self_training_config : keeps_self training_config.
Proof. by intros s. Qed.

Lemma keeps_hyperparameters_save path : keeps_hyperparameters (save path).
Proof.
  apply keeps_self_hyperparameters. unfold save.
  apply keeps_self_bind; [apply keeps_self_get_self | intros t].
  apply keeps_self_bind; [apply keeps_self_getattr | intros m].
  apply keeps_self_emit.
Qed.

Lemma keeps_hyperparameters_push_to_hub hf_path private :
  keeps_hyperparameters (push_to_hub hf_path private).
Proof.
  apply keeps_self_hyperparameters. unfold push_to_hub.
  apply keeps_self_bind; [apply keeps_self_getattr | intros m].
  apply keeps_self_bind; [apply keeps_self_emit | intros _].
  apply keeps_self_bind; [apply keeps_self_getattr | intros t].
  apply keeps_self_emit.
Qed.

Lemma keeps_hyperparameters_instantiate_reward_model :
  keeps_hyperparameters instantiate_reward_model.
Proof. by intros s. Qed.

Lemma keeps_hyperparameters_instantiate_reward_trainer data :
  keeps_hyperparameters (instantiate_reward_trainer data).
Proof.
  intros s. unfold instantiate_reward_trainer, get_dict, getitem_dict.
  unfold mbind, M_bind, read_dict, getattr, training_config, get_self, mret, M_ret, lift.
  destruct (heap s !! data) as [[|items]|]; simpl; try done.
  destruct (model (self s)); simpl; [|done].
  destruct (tokenizer (self s)); simpl; [|done].
  destruct (heap s !! data) as [[|items']|]; simpl; try done.
  destruct (dict_get "train" items'); simpl; done.
Qed.

Lemma fit_after_load data s :
  fit data s =
  match load (tokenize_loader (self s)) with
  | Raise e => (Raise e, s)
  | Ok tok =>
      (data ← _format_data_by_training_task data;
       instantiate_reward_model;;
       instantiate_reward_trainer data;;
       engine ← getattr "trainer" trainer;
       emit (train engine))
        {| self := with_tokenizer (self s) tok; heap := heap s; log := log s |}
  end.
Proof.
  unfold fit. unfold mbind at 1 2 3, M_bind at 1 2 3, get_self, lift, set_self.
  by destruct (load (tokenize_loader (self s))).
Qed.

Lemma keeps_hyperparameters_fit data : keeps_hyperparameters (fit data).
Proof.
  intros s. rewrite fit_after_load.
  destruct (load (tokenize_loader (self s))) as [tok|e]; [|done].
  match goal with |- context [(?m ≫= ?f) ?s1] =>
    assert (keeps_hyperparameters (m ≫= f)) as Hrest; [|by destruct (Hrest s1) as [-> ->]]
  end.
  apply keeps_hyperparameters_bind;
    [apply keeps_self_hyperparameters, keeps_self_format_data | intros d].
  apply keeps_hyperparameters_bind;
    [apply keeps_hyperparameters_instantiate_reward_model | intros _].
  apply keeps_hyperparameters_bind;
    [apply keeps_hyperparameters_instantiate_reward_trainer | intros _].
  apply keeps_self_hyperparameters.
  apply keeps_self_bind; [apply keeps_self_getattr | intros t; apply keeps_self_emit].
Qed.

Lemma keeps_hyperparameters_run_call c : keeps_hyperparameters (run_call c).
Proof.
  destruct c; simpl.
  - apply keeps_hyperparameters_fit.
  - apply keeps_hyperparameters_save.
  - apply keeps_hyperparameters_push_to_hub.
  - apply keeps_hyperparameters_instantiate_reward_model.
  - apply keeps_hyperparameters_instantiate_reward_trainer.
  - apply keeps_self_hyperparameters.
    apply keeps_self_bind; [apply keeps_self_format_data | intros; apply keeps_self_ret].
  - apply keeps_self_hyperparameters.
    apply keeps_self_bind; [apply keeps_self_training_config | intros; apply keeps_self_ret].
Qed.

(** Whatever the client calls, the instance keeps the arguments it was
    constructed with. *)
Lemma run_calls_hyperparameters cs s :
  hyperparameters (self (run_calls cs s)) = hyperparameters (self s).
Proof.
  revert s. induction cs as [|c rest IH]; intros s; simpl; [done|].
  rewrite IH. apply keeps_hyperparameters_run_call.
Qed.

Lemma hyperparameters_init c a : hyperparameters (__init__ c a) = a.
Proof. by destruct a. Qed.

Lemma new_hyperparameters c a t : new c a = Ok t -> hyperparameters t = a.
Proof.
  unfold new. destruct (abstractmethods c); [|done].
  intros [= <-]. apply hyperparameters_init.
Qed.

End Frames.

(** * The claims *)

(** ** Label formatting of the classification trainer *)

Section Classification.

Implicit Types (s : state) (items : list (string * loc)) (df : table) (ls : list Z).

Lemma dict_get_elem items k (v : loc) :
  NoDup (map fst items) -> (k, v) ∈ items -> dict_get k items = Some v.
Proof.
  unfold dict_get. induction items as [|[k' v'] rest IH]; simpl; intros Hnd Hin.
  - by inversion Hin.
  - apply NoDup_cons in Hnd as [Hk' Hnd].
    apply elem_of_cons in Hin as [[= <- <-]|Hin].
    + by rewrite String.eqb_refl.
    + destruct (String.eqb_spec k' k) as [->|_]; simpl; [|auto].
      exfalso. apply Hk'. apply list_elem_of_fmap. by exists (k, v).
Qed.

Lemma dict_get_absent items k :
  k ∉ map fst items -> dict_get k items = None.
Proof.
  unfold dict_get. induction items as [|[k' v'] rest IH]; simpl; intros Hk; [done|].
  apply not_elem_of_cons in Hk as [Hne Hk].
  destruct (String.eqb_spec k' k); [congruence | auto].
Qed.

Lemma fold_outcome_flat self df ls :
  flat_labels df ls ->
  fold_outcome self (Some (OTable df)) =
  match _format_one_hot_labels self (format_dataset_dtype df "labels" "int64") with
  | Ok df' => Ok (Some df')
  | Raise e => Raise e
  end.
Proof.
  unfold flat_labels, fold_outcome. intros ->. simpl.
  rewrite np_array_flat. simpl. done.
Qed.

Lemma fold_outcome_multi_dimensional self df :
  multi_dimensional_labels df -> fold_outcome self (Some (OTable df)) = Ok None.
Proof.
  intros (col & arr & Hcol & Harr & Hdim). unfold fold_outcome.
  rewrite Hcol. simpl. rewrite Harr. simpl.
  destruct (Nat.eqb_spec (ndim arr) 1); [lia | done].
Qed.

(** The one-hot vector of an in-range label: [n] entries, a single [1], at
    the position of the label, which [np.argmax] finds. *)
Lemma one_hot_spec (n z : Z) :
  (0 <= z < n)%Z ->
  exists row,
    one_hot n z = CList (map CInt row) /\
    Z.of_nat (length row) = n /\
    Z.of_nat (np_argmax row) = z /\
    forall j, (0 <= j < n)%Z ->
      row !! Z.to_nat j = Some (if (j =? z)%Z then 1%Z else 0%Z).
Proof.
  intros Hz. exists (eye_row (Z.to_nat n) (Z.to_nat z)).
  split; [done|]. rewrite length_eye_row, np_argmax_eye_row by lia.
  split; [lia|]. split; [lia|].
  intros j Hj. rewrite lookup_eye_row by lia.
  destruct (Z.eqb_spec j z) as [->|Hne].
  - by rewrite Nat.eqb_refl.
  - destruct (Nat.eqb_spec (Z.to_nat z) (Z.to_nat j)); [lia | done].
Qed.

Lemma map_CInt_inj (l1 l2 : list Z) : map CInt l1 = map CInt l2 -> l1 = l2.
Proof.
  revert l2. induction l1 as [|x r IH]; intros [|y r2]; simpl; try done.
  intros [= -> Hr]. f_equal. auto.
Qed.

Lemma Forall2_with_l {A B : Type} (Q : A -> Prop) (P : A -> B -> Prop) l k :
  Forall Q l -> Forall2 P l k -> Forall2 (fun x y => Q x /\ P x y) l k.
Proof.
  intros HQ HP. induction HP as [|x y l k Hxy _ IH]; [constructor|].
  inversion HQ; subst. constructor; auto.
Qed.

(** Non-empty flat folds with labels in range: the hook returns a new
    mapping in which every such fold refers to a table whose "labels" column
    holds the one-hot vectors of the original labels. *)
Lemma nonempty_flat_folds_one_hot s (d : loc) items :
  cls (self s) = RewardClassificationTrainer ->
  heap s !! d = Some (ODict items) ->
  NoDup (map fst items) ->
  Forall (fun kv => exists df,
            heap s !! kv.2 = Some (OTable df) /\
            (multi_dimensional_labels df \/
             exists ls, flat_labels df ls /\ ls ≠ [] /\
                        Forall (fun z => (0 <= z < num_labels (self s))%Z) ls)) items ->
  exists s' items',
    _format_data_by_training_task d s = (Ok (length (heap s)), s') /\
    heap s' !! length (heap s) = Some (ODict items') /\
    Forall2 (fun kv kv' =>
      kv'.1 = kv.1 /\
      forall df ls, heap s !! kv.2 = Some (OTable df) -> flat_labels df ls ->
        exists df', heap s' !! kv'.2 = Some (OTable df') /\
                    getitem df' "labels" = Ok (map (one_hot (num_labels (self s))) ls))
      items items'.
Proof.
  intros Hcls Hd Hnd Hfolds.
  assert (Forall (fun kv => kv.2 < length (heap s)) items) as Hrefs.
  { eapply Forall_impl; [exact Hfolds|]. simpl. intros kv (df & Hdf & _).
    by eapply lookup_lt_Some. }
  assert (Forall (fun kv => exists o, fold_outcome (self s) (heap s !! kv.2) = Ok o) items)
    as Hok.
  { eapply Forall_impl; [exact Hfolds|]. simpl.
    intros kv (df & -> & [Hmulti|(ls & Hflat & Hne & Hls)]).
    - exists None. by apply fold_outcome_multi_dimensional.
    - rewrite (fold_outcome_flat _ _ _ Hflat).
      erewrite one_hot_labels_in_range; [eauto | | done | done].
      unfold flat_labels in Hflat. by rewrite getitem_cast. }
  rewrite (classification_hook_run _ _ _ Hcls Hd Hnd Hrefs).
  pose proof (run_folds_total _ _ (S (length (heap s))) _ Hok) as Htot.
  pose proof (run_folds_ok (self s) (heap s) (S (length (heap s))) items) as Hrun.
  destruct (run_folds (self s) (heap s) (S (length (heap s))) items) as [[r items'] news].
  simpl in Htot. subst r. specialize (Hrun _ _ eq_refl).
  eexists _, items'. split; [done|]. cbn [heap].
  split; [by apply list_lookup_middle|].
  eapply Forall2_impl; [exact (Forall2_with_l _ _ _ _ Hfolds Hrun)|]. simpl.
  intros kv kv' [(df0 & Hdf0 & Hkind) [Hk Hcases]]. split; [done|].
  intros df ls Hdf Hflat. rewrite Hdf in Hdf0, Hcases. injection Hdf0 as <-.
  assert (exists ls0, flat_labels df ls0 /\ ls0 ≠ [] /\
            Forall (fun z => (0 <= z < num_labels (self s))%Z) ls0)
    as (ls0 & Hflat0 & Hne & Hls).
  { destruct Hkind as [(col & arr & Hcol & Harr & Hdim)|Hkind]; [|exact Hkind].
    exfalso. unfold flat_labels in Hflat. rewrite Hflat in Hcol. injection Hcol as <-.
    rewrite np_array_flat in Harr. injection Harr as Harr. subst arr.
    unfold ndim in Hdim. simpl in Hdim. lia. }
  assert (ls0 = ls) as ->.
  { unfold flat_labels in Hflat, Hflat0. rewrite Hflat in Hflat0.
    injection Hflat0 as Heq. symmetry. by apply map_CInt_inj. }
  rewrite (fold_outcome_flat _ _ _ Hflat) in Hcases.
  rewrite (one_hot_labels_in_range (self s) _ ls) in Hcases;
    [|by rewrite getitem_cast|done|done].
  destruct Hcases as [[_ [=]]|(df' & [= <-] & Hge & Hnew)].
  eexists. split.
  - rewrite lookup_app_r by lia.
    replace (kv'.2 - length (heap s)) with (S (kv'.2 - S (length (heap s)))) by lia.
    exact Hnew.
  - unfold relabelled. apply getitem_added, has_column_removed.
Qed.

Lemma distinct_values_counted ls vs :
  NoDup vs -> (forall x, x ∈ vs -> x ∈ ls) ->
  length vs <= length (foldr insert_unique [] ls).
Proof.
  intros Hnd Hsub.
  pose proof (np_unique_distinct
    {| nd_dtype := int64; nd_shape := [length ls]; nd_items := map CInt ls |} vs Hnd) as H.
  unfold np_unique in H. simpl nd_items in H. rewrite leaves_flat in H. auto.
Qed.

Lemma fold_outcome_too_many self df ls :
  flat_labels df ls ->
  more_distinct_than (num_labels self) ls ->
  _format_one_hot_labels self (format_dataset_dtype df "labels" "int64")
    = Raise AssertionError
  /\ fold_outcome self (Some (OTable df)) = Raise AssertionError.
Proof.
  intros Hflat (vs & Hnd & Hsub & Hn).
  assert (_format_one_hot_labels self (format_dataset_dtype df "labels" "int64")
          = Raise AssertionError) as Hraise.
  { apply (one_hot_labels_too_many _ _ ls); [by rewrite getitem_cast|].
    pose proof (distinct_values_counted ls vs Hnd Hsub). lia. }
  split; [done|]. by rewrite (fold_outcome_flat _ _ _ Hflat), Hraise.
Qed.

(** C1 (failing input).  A fold without examples has a flat "labels" column
    all of whose labels are in range, yet the classification hook does not
    return the fold with an (empty) one-hot column: [np.array] of the empty
    list has dtype float64, and indexing the identity matrix with it raises
    [IndexError]. *)
Theorem empty_flat_fold_raises_IndexError :
  flat_labels (sample_table []) [] /\
  Forall (fun z => (0 <= z < 3)%Z) [] /\
  (_format_data_by_training_task 1
     (sample_state RewardClassificationTrainer 3
        [OTable (sample_table []); ODict [("train", 0)]])).1
  = Raise IndexError.
Proof. repeat split. constructor. Qed.

(** The example of the specification: three labels, column [0, 2, 1]. *)
Example one_hot_of_0_2_1 :
  exists s',
    _format_data_by_training_task 1
      (sample_state RewardClassificationTrainer 3
         [OTable (sample_table [CInt 0; CInt 2; CInt 1]); ODict [("train", 0)]])
    = (Ok 2, s') /\
    heap s' !! 2 = Some (ODict [("train", 3)]) /\
    exists df', heap s' !! 3 = Some (OTable df') /\
      getitem df' "labels" =
      Ok [CList [CInt 1; CInt 0; CInt 0];
          CList [CInt 0; CInt 0; CInt 1];
          CList [CInt 0; CInt 1; CInt 0]].
Proof. eexists. split; [reflexivity|]. split; [reflexivity|]. eexists. split; reflexivity. Qed.

(** The hook on a mapping that holds a fold with too many distinct labels. *)
Lemma hook_too_many_distinct s (d : loc) pre fold (df : loc) post tbl ls :
  cls (self s) = RewardClassificationTrainer ->
  heap s !! d = Some (ODict (pre ++ (fold, df) :: post)) ->
  NoDup (map fst (pre ++ (fold, df) :: post)) ->
  Forall (fun kv => kv.2 < length (heap s)) (pre ++ (fold, df) :: post) ->
  heap s !! df = Some (OTable tbl) ->
  flat_labels tbl ls ->
  more_distinct_than (num_labels (self s)) ls ->
  exists e s',
    _format_data_by_training_task d s = (Raise e, s') /\
    self s' = self s /\ log s' = log s /\
    (Forall (fun kv => exists o, fold_outcome (self s) (heap s !! kv.2) = Ok o) pre ->
     e = AssertionError).
Proof.
  intros Hcls Hd Hnd Hrefs Hdf Hflat Hmany.
  destruct (fold_outcome_too_many (self s) tbl ls Hflat Hmany) as [_ Hout].
  rewrite (classification_hook_run _ _ _ Hcls Hd Hnd Hrefs).
  rewrite <- Hdf in Hout.
  destruct (run_folds_no_result (self s) (heap s) (S (length (heap s)))
              (pre ++ (fold, df) :: post) fold df AssertionError) as [e' He'];
    [apply elem_of_app; right; left | done |].
  pose proof (fun Hpre => run_folds_raise (self s) (heap s) (S (length (heap s)))
                            pre fold df post AssertionError Hpre Hout) as Hfirst.
  destruct (run_folds (self s) (heap s) (S (length (heap s))) (pre ++ (fold, df) :: post))
    as [[r items'] news].
  simpl in He', Hfirst. subst r.
  eexists e', _. split; [done|]. split; [done|]. split; [done|].
  intros Hpre. specialize (Hfirst Hpre). congruence.
Qed.

(** C2.  A fold whose flat "labels" column holds more distinct values than
    [num_labels]: the one-hot method raises [AssertionError] on it (after the
    cast, before any one-hot vector is built); the hook returns no mapping,
    and [fit] raises before any call reaches the model registry or the
    training engine (the log is as before).  The exception is that
    [AssertionError] when the folds that come before in the mapping are
    formatted without exception. *)
Theorem too_many_distinct_labels_assertion s (d : loc) pre fold (df : loc) post tbl ls :
  cls (self s) = RewardClassificationTrainer ->
  heap s !! d = Some (ODict (pre ++ (fold, df) :: post)) ->
  NoDup (map fst (pre ++ (fold, df) :: post)) ->
  Forall (fun kv => kv.2 < length (heap s)) (pre ++ (fold, df) :: post) ->
  heap s !! df = Some (OTable tbl) ->
  flat_labels tbl ls ->
  more_distinct_than (num_labels (self s)) ls ->
  _format_one_hot_labels (self s) (format_dataset_dtype tbl "labels" "int64")
    = Raise AssertionError
  /\ (exists e s',
        _format_data_by_training_task d s = (Raise e, s') /\
        (Forall (fun kv => exists o, fold_outcome (self s) (heap s !! kv.2) = Ok o) pre ->
         e = AssertionError))
  /\ (forall tok,
        load (tokenize_loader (self s)) = Ok tok ->
        exists e s',
          fit d s = (Raise e, s') /\ log s' = log s /\
          (Forall (fun kv => exists o, fold_outcome (self s) (heap s !! kv.2) = Ok o) pre ->
           e = AssertionError)).
Proof.
  intros Hcls Hd Hnd Hrefs Hdf Hflat Hmany.
  split; [by apply (fold_outcome_too_many (self s) tbl ls)|]. split.
  - destruct (hook_too_many_distinct s d pre fold df post tbl ls)
      as (e & s' & Hrun & _ & _ & He); try done.
    by exists e, s'.
  - intros tok Htok. rewrite fit_after_load, Htok.
    destruct (hook_too_many_distinct
                {| self := with_tokenizer (self s) tok; heap := heap s; log := log s |}
                d pre fold df post tbl ls)
      as (e & s' & Hrun & _ & Hlog & He); try done.
    exists e, s'. unfold mbind at 1, M_bind at 1. rewrite Hrun.
    split; [done|]. split; [done|]. exact He.
Qed.

(** At three distinct values and [num_labels = 2]. *)
Lemma too_many_distinct_labels_witness :
  (_format_data_by_training_task 1
     (sample_state RewardClassificationTrainer 2
        [OTable (sample_table [CInt 0; CInt 1; CInt 2]); ODict [("train", 0)]])).1
  = Raise AssertionError.
Proof.
  destruct (too_many_distinct_labels_assertion
              (sample_state RewardClassificationTrainer 2
                 [OTable (sample_table [CInt 0; CInt 1; CInt 2]); ODict [("train", 0)]])
              1 [] "train" 0 [] (sample_table [CInt 0; CInt 1; CInt 2]) [0; 1; 2]%Z)
    as (_ & (e & s' & Hrun & He) & _).
  - reflexivity.
  - reflexivity.
  - simpl. apply NoDup_singleton.
  - repeat constructor.
  - reflexivity.
  - reflexivity.
  - exists [0; 1; 2]%Z. split; [|split; [auto | simpl; lia]].
    repeat (constructor; [rewrite ?elem_of_cons, ?elem_of_nil; lia|]). constructor.
  - rewrite Hrun. simpl. f_equal. apply He. constructor.
Defined.

(** What a run of the hook does to the heap: it only adds objects, and the
    mapping it returns is told by the outcomes of the folds. *)
Lemma classification_hook_effect s (d : loc) items r s' :
  cls (self s) = RewardClassificationTrainer ->
  heap s !! d = Some (ODict items) ->
  NoDup (map fst items) ->
  Forall (fun kv => kv.2 < length (heap s)) items ->
  _format_data_by_training_task d s = (r, s') ->
  (forall (l : loc) o, heap s !! l = Some o -> heap s' !! l = Some o) /\
  heap s' !! d = Some (ODict items) /\
  forall d', r = Ok d' ->
    d' ≠ d /\ heap s !! d' = None /\
    exists items',
      heap s' !! d' = Some (ODict items') /\
      Forall2 (fun kv kv' =>
        kv'.1 = kv.1 /\
        ((fold_outcome (self s) (heap s !! kv.2) = Ok None /\ kv'.2 = kv.2) \/
         (exists tbl, fold_outcome (self s) (heap s !! kv.2) = Ok (Some tbl) /\
                      heap s !! kv'.2 = None /\
                      heap s' !! kv'.2 = Some (OTable tbl))))
        items items'.
Proof.
  intros Hcls Hd Hnd Hrefs.
  rewrite (classification_hook_run _ _ _ Hcls Hd Hnd Hrefs).
  pose proof (run_folds_ok (self s) (heap s) (S (length (heap s))) items) as Hrun.
  destruct (run_folds (self s) (heap s) (S (length (heap s))) items) as [[r0 items'] news].
  intros [= <- <-]. cbn [heap].
  assert (forall (l : loc) o, heap s !! l = Some o ->
            (heap s ++ [ODict items'] ++ news) !! l = Some o) as Hframe.
  { intros l o Hl. rewrite lookup_app_l; [done | by eapply lookup_lt_Some]. }
  split; [done|]. split; [by apply Hframe|].
  intros d' Hd'. destruct r0 as [[]|e]; [|done]. injection Hd' as <-.
  split; [apply lookup_lt_Some in Hd; lia|].
  split; [by apply lookup_ge_None|].
  exists items'. split; [by apply list_lookup_middle|].
  eapply Forall2_impl; [exact (Hrun _ _ eq_refl)|]. simpl.
  intros kv kv' [Hk [[Hsame Hnone]|(tbl & Hsome & Hge & Hnew)]]; (split; [done|]).
  - by left.
  - right. exists tbl. split; [done|]. split; [apply lookup_ge_None; lia|].
    rewrite lookup_app_r by lia.
    replace (kv'.2 - length (heap s)) with (S (kv'.2 - S (length (heap s)))) by lia.
    done.
Qed.

(** C4.  The classification hook never mutates the caller's mapping, nor any
    object that exists when it is called (whether it returns or raises).
    When it returns, the result is a new mapping object with the same fold
    names in the same order; a fold the loop leaves alone refers to the
    caller's table, a fold the loop formats refers to a table that did not
    exist before the call. *)
Theorem classification_hook_frame s (d : loc) items r s' :
  cls (self s) = RewardClassificationTrainer ->
  heap s !! d = Some (ODict items) ->
  NoDup (map fst items) ->
  Forall (fun kv => kv.2 < length (heap s)) items ->
  _format_data_by_training_task d s = (r, s') ->
  (forall (l : loc) o, heap s !! l = Some o -> heap s' !! l = Some o) /\
  heap s' !! d = Some (ODict items) /\
  forall d', r = Ok d' ->
    d' ≠ d /\ heap s !! d' = None /\
    exists items',
      heap s' !! d' = Some (ODict items') /\
      Forall2 (fun kv kv' =>
        kv'.1 = kv.1 /\
        ((fold_outcome (self s) (heap s !! kv.2) = Ok None /\ kv'.2 = kv.2) \/
         (exists tbl, fold_outcome (self s) (heap s !! kv.2) = Ok (Some tbl) /\
                      heap s !! kv'.2 = None /\
                      heap s' !! kv'.2 = Some (OTable tbl))))
        items items'.
Proof. apply classification_hook_effect. Qed.

(** On a mapping of a fold to format (train) and a fold to leave alone
    (validation). *)
Lemma classification_hook_frame_witness :
  exists s',
    _format_data_by_training_task 2
      (sample_state RewardClassificationTrainer 3
         [OTable (sample_table [CInt 0; CInt 2; CInt 1]);
          OTable (sample_table [CList [CInt 1; CInt 0; CInt 0]]);
          ODict [("train", 0); ("validation", 1)]])
    = (Ok 3, s') /\
    heap s' !! 2 = Some (ODict [("train", 0); ("validation", 1)]) /\
    heap s' !! 3 = Some (ODict [("train", 4); ("validation", 1)]).
Proof.
  eexists. split; [reflexivity|].
  assert (NoDup (map fst [("train", 0); ("validation", 1)])) as Hnd.
  { simpl. apply NoDup_cons. split; [|apply NoDup_singleton].
    intros Hin. apply list_elem_of_singleton in Hin. discriminate. }
  edestruct (classification_hook_frame
    (sample_state RewardClassificationTrainer 3
       [OTable (sample_table [CInt 0; CInt 2; CInt 1]);
        OTable (sample_table [CList [CInt 1; CInt 0; CInt 0]]);
        ODict [("train", 0); ("validation", 1)]])
    2 [("train", 0); ("validation", 1)]) as (_ & Hcaller & _);
    [reflexivity | reflexivity | exact Hnd | repeat constructor | reflexivity |].
  split; [exact Hcaller | reflexivity].
Defined.

(** C5.  A fold whose "labels" column is multi-dimensional: the loop body
    does nothing on it, in any state and for any mapping; and whenever the
    hook is run on a mapping that holds the fold, the table is the same
    afterwards and the mapping the hook returns refers to that very table
    under the fold's name. *)
Theorem multi_dimensional_fold_passed_through s (d : loc) items fold (df : loc) tbl :
  cls (self s) = RewardClassificationTrainer ->
  heap s !! d = Some (ODict items) ->
  NoDup (map fst items) ->
  Forall (fun kv => kv.2 < length (heap s)) items ->
  (fold, df) ∈ items ->
  heap s !! df = Some (OTable tbl) ->
  multi_dimensional_labels tbl ->
  (forall (d0 : loc) s0, heap s0 !! df = Some (OTable tbl) ->
     format_fold d0 fold df s0 = (Ok tt, s0)) /\
  (forall r s', _format_data_by_training_task d s = (r, s') ->
     heap s' !! df = Some (OTable tbl) /\
     forall d', r = Ok d' ->
       exists items', heap s' !! d' = Some (ODict items') /\
                      dict_get fold items' = Some df).
Proof.
  intros Hcls Hd Hnd Hrefs Hin Hdf Hmulti. split.
  - intros d0 s0 Hdf0. destruct Hmulti as (col & arr & Hcol & Harr & Hdim).
    unfold format_fold, mbind, M_bind, read_table, lift. rewrite Hdf0, Hcol, Harr.
    destruct (Nat.eqb_spec (ndim arr) 1); [lia | done].
  - intros r s' Hrun.
    destruct (classification_hook_effect s d items r s' Hcls Hd Hnd Hrefs Hrun)
      as (Hframe & _ & Hres).
    split; [by apply Hframe|].
    intros d' Hd'. destruct (Hres d' Hd') as (_ & _ & items' & Hitems' & Hrel).
    exists items'. split; [done|].
    apply list_elem_of_lookup in Hin as [i Hi].
    destruct (Forall2_lookup_l _ _ _ _ _ Hrel Hi) as (kv' & Hi' & Hk & Hcases).
    simpl in Hk, Hcases. rewrite Hdf in Hcases.
    rewrite (fold_outcome_multi_dimensional _ _ Hmulti) in Hcases.
    destruct Hcases as [[_ Hsame]|(? & [=] & _)].
    apply dict_get_elem.
    + assert (map fst items' = map fst items) as ->; [|done].
      clear -Hrel.
      induction Hrel as [|x y l k [Hxy _] _ IH]; simpl; [done | by rewrite IH, Hxy].
    + apply list_elem_of_lookup. exists i. rewrite Hi'.
      destruct kv' as [k v]. simpl in *. by subst.
Qed.

(** On a validation fold that is already one-hot. *)
Lemma multi_dimensional_fold_witness :
  format_fold 2 "validation" 1
    (sample_state RewardClassificationTrainer 3
       [OTable (sample_table [CInt 0; CInt 2; CInt 1]);
        OTable (sample_table [CList [CInt 1; CInt 0; CInt 0]]);
        ODict [("train", 0); ("validation", 1)]])
  = (Ok tt,
     sample_state RewardClassificationTrainer 3
       [OTable (sample_table [CInt 0; CInt 2; CInt 1]);
        OTable (sample_table [CList [CInt 1; CInt 0; CInt 0]]);
        ODict [("train", 0); ("validation", 1)]]).
Proof.
  edestruct (multi_dimensional_fold_passed_through
    (sample_state RewardClassificationTrainer 3
       [OTable (sample_table [CInt 0; CInt 2; CInt 1]);
        OTable (sample_table [CList [CInt 1; CInt 0; CInt 0]]);
        ODict [("train", 0); ("validation", 1)]])
    2 [("train", 0); ("validation", 1)] "validation" 1
    (sample_table [CList [CInt 1; CInt 0; CInt 0]])) as [Hbody _];
    [reflexivity | reflexivity | | | | reflexivity | | apply Hbody; reflexivity].
  - simpl. apply NoDup_cons. split; [|apply NoDup_singleton].
    intros Hin. apply list_elem_of_singleton in Hin. discriminate.
  - repeat constructor.
  - right. left.
  - eexists _, _. split; [reflexivity|]. split; [reflexivity|]. unfold ndim. simpl. lia.
Defined.

(** C6.  The assertion does not guard the indexing.  A flat column with at
    most [num_labels] distinct values, one of them [num_labels] or more:
    the assertion passes, indexing the identity matrix raises [IndexError],
    and so does the one-hot method. *)
Theorem assertion_passes_indexing_raises self df ls arr z :
  flat_labels df ls ->
  np_array (map CInt ls) = Ok arr ->
  (Z.of_nat (length (np_unique arr)) <= num_labels self)%Z ->
  z ∈ ls ->
  (num_labels self <= z)%Z ->
  py_assert (Z.of_nat (length (np_unique arr)) <=? num_labels self)%Z = Ok tt /\
  (eye ← np_eye (num_labels self); np_take eye arr) = Raise IndexError /\
  _format_one_hot_labels self df = Raise IndexError.
Proof.
  intros Hflat Harr Hu Hin Hz.
  assert (Z.of_nat (length (foldr insert_unique [] ls)) <= num_labels self)%Z as Hu'.
  { rewrite np_array_flat in Harr. injection Harr as Harr. subst arr.
    unfold np_unique in Hu. simpl nd_items in Hu. by rewrite leaves_flat in Hu. }
  split; [|split].
  - unfold py_assert. by destruct (Z.leb_spec (Z.of_nat (length (np_unique arr)))
                                     (num_labels self)); [|lia].
  - rewrite np_array_flat in Harr. injection Harr as Harr. subst arr.
    rewrite np_eye_nonneg by lia. simpl. unfold np_take. simpl nd_items.
    destruct ls as [|y r]; [by inversion Hin|]. simpl nd_dtype. cbv iota.
    erewrite mapM_take_rows_out_of_range; [done | exact Hin |].
    rewrite length_map, length_seq, Z2Nat.id by lia. by right.
  - eapply one_hot_labels_out_of_range; [exact Hflat | done | exact Hin | by right].
Qed.

(** With the labels [0, 2] and [num_labels = 2]. *)
Lemma assertion_passes_indexing_raises_witness :
  py_assert (Z.of_nat (length (foldr insert_unique [] [0; 2]%Z)) <=? 2)%Z = Ok tt /\
  _format_one_hot_labels (__init__ RewardClassificationTrainer (sample_args 2))
    (sample_table [CInt 0; CInt 2])
  = Raise IndexError.
Proof.
  destruct (assertion_passes_indexing_raises
              (__init__ RewardClassificationTrainer (sample_args 2))
              (sample_table [CInt 0; CInt 2]) [0; 2]%Z
              {| nd_dtype := int64; nd_shape := [2]; nd_items := [CInt 0; CInt 2] |} 2%Z)
    as (Hassert & _ & Hraise).
  - reflexivity.
  - reflexivity.
  - simpl. lia.
  - right. left.
  - simpl. lia.
  - split; [exact Hassert | exact Hraise].
Defined.

End Classification.

(** ** The base trainer and its configuration *)

Section Trainer.

Implicit Types (s : state) (a : Args.t) (items : list (string * loc)).

(** C3 (as stated, refuted).  Instantiating the base class and calling [fit]
    does not end in [NotImplementedError]. *)
Lemma base_fit_is_not_NotImplementedError :
  ~ exists h lg,
      instantiate_and_fit BaseRewardTrainer (sample_args 1) 0 [ODict []] []
      = (Raise NotImplementedError, h, lg).
Proof. intros (h & lg & Heq). discriminate Heq. Qed.

(** C3 (amended).  The base class cannot be used directly: instantiating it
    raises [TypeError], because the class still has the abstract method, so
    [fit] is never entered and nothing happens to heap or log.  The body of
    the hook of the base class raises [NotImplementedError] whenever it is
    run on an object of that class, leaving the state as it is. *)
Theorem base_trainer_cannot_be_instantiated a (data : loc) h lg :
  abstractmethods BaseRewardTrainer = ["_format_data_by_training_task"] /\
  new BaseRewardTrainer a = Raise TypeError /\
  instantiate_and_fit BaseRewardTrainer a data h lg = (Raise TypeError, h, lg) /\
  forall s (d : loc),
    cls (self s) = BaseRewardTrainer ->
    _format_data_by_training_task d s = (Raise NotImplementedError, s).
Proof.
  repeat split.
  intros s d Hcls.
  unfold _format_data_by_training_task, mbind, M_bind, get_self. by rewrite Hcls.
Qed.

Lemma base_trainer_cannot_be_instantiated_witness :
  instantiate_and_fit BaseRewardTrainer (sample_args 1) 0 [ODict []] []
  = (Raise TypeError, [ODict []], []) /\
  _format_data_by_training_task 0 (sample_state BaseRewardTrainer 1 [ODict []])
  = (Raise NotImplementedError, sample_state BaseRewardTrainer 1 [ODict []]).
Proof.
  destruct (base_trainer_cannot_be_instantiated (sample_args 1) 0 [ODict []] [])
    as (_ & _ & Hfit & Hhook).
  split; [exact Hfit|]. apply Hhook. reflexivity.
Defined.

(** The configuration an instance builds is a function of the arguments it
    was constructed with, at any time of its life. *)
Lemma training_config_of_hyperparameters s :
  training_config s =
  (Ok {| ta_output_dir := Args.output_dir (hyperparameters (self s));
         ta_learning_rate := Args.learning_rate (hyperparameters (self s));
         ta_num_train_epochs := Args.num_train_epochs (hyperparameters (self s));
         ta_logging_dir := (Args.output_dir (hyperparameters (self s)) ++ "/logs")%string;
         ta_logging_strategy := Args.logging_strategy (hyperparameters (self s));
         ta_logging_steps := Args.logging_steps (hyperparameters (self s));
         ta_evaluation_strategy := Args.eval_strategy (hyperparameters (self s));
         ta_eval_steps := Args.eval_steps (hyperparameters (self s));
         ta_save_strategy := Args.save_strategy (hyperparameters (self s));
         ta_save_steps := Args.save_steps (hyperparameters (self s));
         ta_bf16 := Args.bf16 (hyperparameters (self s));
         ta_optim := Args.optim (hyperparameters (self s));
         ta_logging_first_step := VBool false;
         ta_seed := Args.train_seed (hyperparameters (self s));
         ta_per_device_train_batch_size :=
           Args.per_device_batch_size (hyperparameters (self s));
         ta_per_device_eval_batch_size :=
           Args.per_device_batch_size (hyperparameters (self s));
         ta_gradient_accumulation_steps :=
           Args.gradient_accumulation_steps (hyperparameters (self s)) |}, s).
Proof. reflexivity. Qed.

Lemma hyperparameters_of_instance c a t h lg cs :
  new c a = Ok t ->
  hyperparameters (self (run_calls cs {| self := t; heap := h; log := lg |})) = a.
Proof.
  intros Hnew. rewrite run_calls_hyperparameters. simpl.
  by apply (new_hyperparameters c).
Qed.

(** C7.  [training_config] is pure and deterministic.  On an instance
    constructed with the arguments [a], whatever methods have been called on
    it since, an access returns the configuration whose fields are the
    corresponding arguments and leaves the state (instance, heap, log) as it
    is; hence any two accesses, on this or on another instance constructed
    with the same arguments, return equal configurations. *)
Theorem training_config_pure_deterministic c a t h lg cs :
  new c a = Ok t ->
  training_config (run_calls cs {| self := t; heap := h; log := lg |}) =
  (Ok {| ta_output_dir := Args.output_dir a;
         ta_learning_rate := Args.learning_rate a;
         ta_num_train_epochs := Args.num_train_epochs a;
         ta_logging_dir := (Args.output_dir a ++ "/logs")%string;
         ta_logging_strategy := Args.logging_strategy a;
         ta_logging_steps := Args.logging_steps a;
         ta_evaluation_strategy := Args.eval_strategy a;
         ta_eval_steps := Args.eval_steps a;
         ta_save_strategy := Args.save_strategy a;
         ta_save_steps := Args.save_steps a;
         ta_bf16 := Args.bf16 a;
         ta_optim := Args.optim a;
         ta_logging_first_step := VBool false;
         ta_seed := Args.train_seed a;
         ta_per_device_train_batch_size := Args.per_device_batch_size a;
         ta_per_device_eval_batch_size := Args.per_device_batch_size a;
         ta_gradient_accumulation_steps := Args.gradient_accumulation_steps a |},
   run_calls cs {| self := t; heap := h; log := lg |})
  /\ forall c' t' h' lg' cs',
       new c' a = Ok t' ->
       (training_config (run_calls cs' {| self := t'; heap := h'; log := lg' |})).1
       = (training_config (run_calls cs {| self := t; heap := h; log := lg |})).1.
Proof.
  intros Hnew. split.
  - rewrite training_config_of_hyperparameters.
    by rewrite (hyperparameters_of_instance c a t h lg cs Hnew).
  - intros c' t' h' lg' cs' Hnew'.
    rewrite !training_config_of_hyperparameters.
    rewrite (hyperparameters_of_instance c a t h lg cs Hnew).
    by rewrite (hyperparameters_of_instance c' a t' h' lg' cs' Hnew').
Qed.

(** A classification trainer read before anything else, and a regression
    trainer with the same arguments read after a fit, a save and a read. *)
Lemma training_config_pure_deterministic_witness :
  (training_config
     (run_calls [call_fit 1; call_save VNone; call_training_config]
        {| self := __init__ RewardRegressionTrainer (sample_args 3);
           heap := [OTable (sample_table [CInt 0; CInt 2; CInt 1]); ODict [("train", 0)]];
           log := [] |})).1
  = (training_config
       (run_calls [] {| self := __init__ RewardClassificationTrainer (sample_args 3);
                        heap := []; log := [] |})).1.
Proof.
  apply (proj2 (training_config_pure_deterministic
                  RewardClassificationTrainer (sample_args 3) _ [] [] [] eq_refl)
           RewardRegressionTrainer).
  reflexivity.
Defined.

(** C8.  On every instance, at any time of its life, both per-device batch
    sizes of the configuration are the [per_device_batch_size] it was
    constructed with. *)
Theorem batch_size_for_train_and_eval c a t h lg cs :
  new c a = Ok t ->
  exists cfg,
    training_config (run_calls cs {| self := t; heap := h; log := lg |})
    = (Ok cfg, run_calls cs {| self := t; heap := h; log := lg |}) /\
    ta_per_device_train_batch_size cfg = Args.per_device_batch_size a /\
    ta_per_device_eval_batch_size cfg = Args.per_device_batch_size a.
Proof.
  intros Hnew. eexists. split; [apply training_config_of_hyperparameters|].
  cbn [ta_per_device_train_batch_size ta_per_device_eval_batch_size].
  by rewrite (hyperparameters_of_instance c a t h lg cs Hnew).
Qed.

Lemma batch_size_for_train_and_eval_witness :
  exists cfg,
    (training_config
       (run_calls [call_instantiate_reward_model]
          {| self := __init__ RewardClassificationTrainer (sample_args 3);
             heap := []; log := [] |})).1 = Ok cfg /\
    ta_per_device_train_batch_size cfg = VInt 8 /\
    ta_per_device_eval_batch_size cfg = VInt 8.
Proof.
  destruct (batch_size_for_train_and_eval
              RewardClassificationTrainer (sample_args 3) _ [] []
              [call_instantiate_reward_model] eq_refl) as (cfg & Hcfg & Htrain & Heval).
  exists cfg. rewrite Hcfg. split; [reflexivity|]. split; [exact Htrain | exact Heval].
Defined.

(** C9.  On an instance whose model and tokenizer are set, and a mapping
    with a "train" fold: the engine is built with that fold as train dataset
    and with the "validation" fold as eval dataset if the mapping has one,
    with [None] if it has none; model, tokenizer and configuration are those
    of the instance, and nothing but [self.trainer] changes.  On a mapping
    without "train" the call raises [KeyError] and changes nothing. *)
Theorem instantiate_reward_trainer_datasets s (d : loc) items m tok :
  heap s !! d = Some (ODict items) ->
  NoDup (map fst items) ->
  model (self s) = Some m ->
  tokenizer (self s) = Some tok ->
  (forall (tr : loc) (ev : option loc),
     ("train", tr) ∈ items ->
     match ev with
     | Some v => ("validation", v) ∈ items
     | None => "validation" ∉ map fst items
     end ->
     exists cfg,
       training_config s = (Ok cfg, s) /\
       instantiate_reward_trainer d s =
       (Ok tt, {| self := with_trainer (self s)
                            {| tr_model := m;
                               tr_args := cfg;
                               tr_tokenizer := tok;
                               tr_train_dataset := tr;
                               tr_eval_dataset := ev |};
                  heap := heap s;
                  log := log s |}))
  /\ ("train" ∉ map fst items ->
      instantiate_reward_trainer d s = (Raise (KeyError "train"), s)).
Proof.
  intros Hd Hnd Hm Htok. split.
  - intros tr ev Htr Hev. eexists. split; [reflexivity|].
    assert (dict_get "validation" items = ev) as Heval.
    { destruct ev as [v|]; [by apply dict_get_elem | by apply dict_get_absent]. }
    unfold instantiate_reward_trainer, get_dict, getitem_dict.
    unfold mbind, M_bind, read_dict, getattr, training_config, get_self, mret, M_ret,
      lift, set_self.
    rewrite Hd. simpl. rewrite Hm. simpl. rewrite Htok. simpl. rewrite Hd.
    rewrite (dict_get_elem _ _ _ Hnd Htr). simpl. by rewrite Heval.
  - intros Hno.
    unfold instantiate_reward_trainer, get_dict, getitem_dict.
    unfold mbind, M_bind, read_dict, getattr, training_config, get_self, mret, M_ret,
      lift, set_self.
    rewrite Hd. simpl. rewrite Hm. simpl. rewrite Htok. simpl. rewrite Hd.
    by rewrite (dict_get_absent _ _ Hno).
Qed.

(** On a mapping with a "train" fold only. *)
Lemma instantiate_reward_trainer_datasets_witness :
  exists engine,
    trainer (self (instantiate_reward_trainer 1
      {| self := with_tokenizer
                   (with_model (__init__ RewardRegressionTrainer (sample_args 1))
                      {| pretrained_name := VStr "gpt2"; head_num_labels := 1;
                         problem_type := VStr "regression"; placement := VStr "auto" |})
                   (Tokenizer "tokenizer");
         heap := [OTable (sample_table [CInt 4]); ODict [("train", 0)]];
         log := [] |}).2) = Some engine /\
    tr_train_dataset engine = 0 /\ tr_eval_dataset engine = None.
Proof.
  edestruct (instantiate_reward_trainer_datasets
    {| self := with_tokenizer
                 (with_model (__init__ RewardRegressionTrainer (sample_args 1))
                    {| pretrained_name := VStr "gpt2"; head_num_labels := 1;
                       problem_type := VStr "regression"; placement := VStr "auto" |})
                 (Tokenizer "tokenizer");
       heap := [OTable (sample_table [CInt 4]); ODict [("train", 0)]];
       log := [] |} 1 [("train", 0)]) as [Hbind _];
    [reflexivity | apply NoDup_singleton | reflexivity | reflexivity |].
  destruct (Hbind 0 None) as (cfg & _ & Hrun).
  - left.
  - simpl. intros Hin. apply list_elem_of_singleton in Hin. discriminate.
  - rewrite Hrun. eexists. split; [reflexivity|]. split; reflexivity.
Defined.

(** C10.  [save] falls back on truthiness.  With the model set, the model is
    saved once: to [output_dir] for every falsy [path] (so for [None], the
    empty string and [0]), to [path] itself for every truthy one; nothing
    else changes. *)
Theorem save_falls_back_on_truthiness s m path :
  model (self s) = Some m ->
  (truthy path = false ->
   save path s =
   (Ok tt, {| self := self s; heap := heap s;
              log := log s ++ [save_pretrained m (VStr (output_dir (self s)))] |}))
  /\ (truthy path = true ->
      save path s =
      (Ok tt, {| self := self s; heap := heap s;
                 log := log s ++ [save_pretrained m path] |}))
  /\ truthy VNone = false /\ truthy (VStr EmptyString) = false /\ truthy (VInt 0) = false.
Proof.
  intros Hm. unfold save, mbind, M_bind, get_self, getattr, emit, py_or.
  rewrite Hm. repeat split; by intros ->.
Qed.

(** Saving with the empty string as path. *)
Lemma save_falls_back_on_truthiness_witness :
  log (save (VStr EmptyString)
         {| self := with_model (__init__ RewardRegressionTrainer (sample_args 1))
                      {| pretrained_name := VStr "gpt2"; head_num_labels := 1;
                         problem_type := VStr "regression"; placement := VStr "auto" |};
            heap := []; log := [] |}).2
  = [save_pretrained
       {| pretrained_name := VStr "gpt2"; head_num_labels := 1;
          problem_type := VStr "regression"; placement := VStr "auto" |}
       (VStr "out")].
Proof.
  edestruct (save_falls_back_on_truthiness
    {| self := with_model (__init__ RewardRegressionTrainer (sample_args 1))
                 {| pretrained_name := VStr "gpt2"; head_num_labels := 1;
                    problem_type := VStr "regression"; placement := VStr "auto" |};
       heap := []; log := [] |}
    {| pretrained_name := VStr "gpt2"; head_num_labels := 1;
       problem_type := VStr "regression"; placement := VStr "auto" |}
    (VStr EmptyString)) as (Hfalsy & _); [reflexivity|].
  rewrite Hfalsy; reflexivity.
Defined.

End Trainer.

(** * Further properties of the code *)

(** ** The one-hot method on its own *)

Section OneHotMethod.

Variable self : reward_trainer.
Implicit Types (df : table) (ls : list Z).

Lemma np_row_eye_wrapped (n : nat) z :
  (- Z.of_nat n <= z < Z.of_nat n)%Z ->
  np_row (map (eye_row n) (seq 0 n)) z
  = Ok (eye_row n (Z.to_nat (if (z <? 0)%Z then z + Z.of_nat n else z)%Z)).
Proof.
  intros Hz. unfold np_row. rewrite length_map, length_seq.
  destruct (Z.leb_spec (- Z.of_nat n) z); [|lia].
  destruct (Z.ltb_spec z (Z.of_nat n)); [|lia]. simpl.
  change (map ?f ?l) with (f <$> l).
  destruct (Z.ltb_spec z 0); rewrite list_lookup_fmap, lookup_seq_lt by lia; done.
Qed.

Lemma mapM_take_rows_wrapped (n : nat) ls :
  Forall (fun z => (- Z.of_nat n <= z < Z.of_nat n)%Z) ls ->
  mapM (take_rows (map (eye_row n) (seq 0 n))) (map CInt ls)
  = Ok (map (one_hot_wrapped (Z.of_nat n)) ls).
Proof.
  induction 1 as [|z r Hz _ IH]; simpl; [done|].
  rewrite np_row_eye_wrapped by done. simpl. rewrite IH.
  unfold one_hot_wrapped, one_hot. by rewrite Nat2Z.id.
Qed.

Lemma not_more_distinct_counted (n : Z) ls :
  ~ more_distinct_than n ls <->
  (Z.of_nat (length (foldr insert_unique [] ls)) <= n)%Z.
Proof.
  split.
  - intros Hno. destruct (Z.le_gt_cases (Z.of_nat (length (foldr insert_unique [] ls))) n)
      as [|Hgt]; [done|].
    exfalso. apply Hno. exists (foldr insert_unique [] ls).
    split; [apply increasing_NoDup, foldr_insert_unique_increasing|].
    split; [|lia]. intros x. by rewrite elem_of_foldr_insert_unique.
  - intros Hle (vs & Hnd & Hsub & Hn).
    pose proof (distinct_values_counted ls vs Hnd Hsub). lia.
Qed.

(** Labels in [-num_labels, num_labels), at least one of them, no more
    distinct values than [num_labels]: the method returns the table with
    the wrapped one-hot vectors. *)
Lemma one_hot_labels_wrapped df ls :
  flat_labels df ls ->
  ls ≠ [] ->
  (Z.of_nat (length (foldr insert_unique [] ls)) <= num_labels self)%Z ->
  Forall (fun z => (- num_labels self <= z < num_labels self)%Z) ls ->
  _format_one_hot_labels self df
  = Ok (relabelled df (map (one_hot_wrapped (num_labels self)) ls)).
Proof.
  intros Hcol Hne Hu Hls. unfold flat_labels in Hcol. unfold _format_one_hot_labels.
  assert (match ls with [] => float64 | _ :: _ => int64 end = int64) as Hd
    by (by destruct ls).
  rewrite Hcol. simpl. rewrite np_array_flat, Hd. simpl.
  assert (0 <= num_labels self)%Z as Hn.
  { destruct ls as [|z r]; [done|]. inversion Hls; lia. }
  unfold np_unique. simpl nd_items. rewrite leaves_flat.
  destruct (Z.leb_spec (Z.of_nat (length (foldr insert_unique [] ls))) (num_labels self));
    [|lia].
  simpl. rewrite np_eye_nonneg by done. simpl.
  unfold np_take. simpl nd_dtype. simpl nd_items.
  rewrite mapM_take_rows_wrapped.
  2:{ eapply Forall_impl; [exact Hls|]. simpl. intros; lia. }
  rewrite Z2Nat.id by done. simpl.
  unfold remove_columns. rewrite (getitem_has_column _ _ _ Hcol). simpl.
  unfold add_column. rewrite has_column_removed. done.
Qed.

(** The converse: what a success of the method on a flat column tells. *)
Lemma one_hot_labels_flat_inv df ls df' :
  flat_labels df ls ->
  _format_one_hot_labels self df = Ok df' ->
  ls ≠ [] /\
  (Z.of_nat (length (foldr insert_unique [] ls)) <= num_labels self)%Z /\
  Forall (fun z => (- num_labels self <= z < num_labels self)%Z) ls /\
  df' = relabelled df (map (one_hot_wrapped (num_labels self)) ls).
Proof.
  intros Hflat Hok.
  assert (Z.of_nat (length (foldr insert_unique [] ls)) <= num_labels self)%Z as Hu.
  { destruct (Z.le_gt_cases (Z.of_nat (length (foldr insert_unique [] ls)))
                (num_labels self)) as [|Hgt]; [done|].
    rewrite (one_hot_labels_too_many self df ls) in Hok; [done | exact Hflat | lia]. }
  assert (ls ≠ []) as Hne.
  { intros ->. rewrite (one_hot_labels_empty self df) in Hok; [done | exact Hflat|].
    simpl in Hu. lia. }
  assert (Forall (fun z => (- num_labels self <= z < num_labels self)%Z) ls) as Hls.
  { apply Forall_forall. intros z Hz.
    destruct (Z.lt_ge_cases z (- num_labels self)) as [Hlo|Hlo];
      [|destruct (Z.lt_ge_cases z (num_labels self)) as [Hhi|Hhi]; [lia|]].
    - rewrite (one_hot_labels_out_of_range self df ls z) in Hok; auto. done.
    - rewrite (one_hot_labels_out_of_range self df ls z) in Hok; auto. done. }
  repeat split; try done.
  rewrite (one_hot_labels_wrapped df ls Hflat Hne Hu Hls) in Hok. by injection Hok.
Qed.

(** X1.  When the method succeeds on a flat column.  For a table with a
    flat "labels" column [ls], the method returns a table exactly when the
    column is not empty, holds no more distinct values than [num_labels] and
    every label lies in [-num_labels, num_labels); the table returned is the
    input with the column replaced by the one-hot vectors, a negative label
    [z] being expanded as the class [z + num_labels]. *)
Theorem one_hot_method_succeeds_iff df ls df' :
  flat_labels df ls ->
  _format_one_hot_labels self df = Ok df' <->
  ls ≠ [] /\
  ~ more_distinct_than (num_labels self) ls /\
  Forall (fun z => (- num_labels self <= z < num_labels self)%Z) ls /\
  df' = relabelled df (map (one_hot_wrapped (num_labels self)) ls).
Proof.
  intros Hflat. split.
  - intros Hok.
    destruct (one_hot_labels_flat_inv df ls df' Hflat Hok) as (Hne & Hu & Hls & ->).
    repeat split; try done. by apply not_more_distinct_counted.
  - intros (Hne & Hcount & Hls & ->).
    apply one_hot_labels_wrapped; try done. by apply not_more_distinct_counted.
Qed.

Lemma mapM_length {A B : Type} (f : A -> result B) l l' :
  mapM f l = Ok l' -> length l' = length l.
Proof.
  revert l'. induction l as [|x r IH]; intros l'; simpl.
  - by intros [= <-].
  - destruct (f x) as [y|e]; [|done]. destruct (mapM f r) as [ys|e]; [|done].
    intros [= <-]. simpl. f_equal. by apply IH.
Qed.

Lemma filter_relabelled df cells :
  filter (fun c : string * column => c.1 ≠ "labels") (relabelled df cells)
  = filter (fun c : string * column => c.1 ≠ "labels") df.
Proof.
  unfold relabelled. rewrite filter_app, filter_cons. simpl.
  rewrite filter_nil, app_nil_r.
  induction df as [|c r IH]; [done|].
  rewrite filter_cons. case_decide as Hc.
  - rewrite filter_cons. case_decide; [|done]. by rewrite IH.
  - done.
Qed.

Lemma np_array_items col arr : np_array col = Ok arr -> nd_items arr = col.
Proof.
  unfold np_array. destruct (cell_shape (CList col)); [|done]. by intros [= <-].
Qed.

Lemma np_array_dtype col arr :
  np_array col = Ok arr -> leaves (CList col) = [] -> nd_dtype arr = float64.
Proof.
  unfold np_array. destruct (cell_shape (CList col)); [|done].
  intros [= <-] Hl. simpl in Hl. cbn [nd_dtype]. by rewrite Hl.
Qed.

(** What the method returns, when it returns. *)
Lemma one_hot_method_result df df' :
  _format_one_hot_labels self df = Ok df' ->
  exists col cells,
    getitem df "labels" = Ok col /\
    length cells = length col /\
    df' = relabelled df cells.
Proof.
  unfold _format_one_hot_labels.
  destruct (getitem df "labels") as [col|e] eqn:Hcol; [|done]. simpl.
  destruct (np_array col) as [arr|e] eqn:Harr; [|done]. simpl.
  destruct (py_assert _); [|done]. simpl.
  destruct (np_eye (num_labels self)) as [eye|e]; [|done]. simpl.
  destruct (np_take eye arr) as [cells|e] eqn:Htake; [|done]. simpl.
  unfold remove_columns. rewrite (getitem_has_column _ _ _ Hcol). simpl.
  unfold add_column. rewrite has_column_removed.
  intros [= <-]. exists col, cells. split; [done|]. split; [|done].
  unfold np_take in Htake. destruct (nd_dtype arr); [|done].
  apply mapM_length in Htake. by rewrite (np_array_items _ _ Harr) in Htake.
Qed.

(** X2.  Whenever the method returns a table, the table holds the columns
    of the input other than "labels", unchanged and in their order, followed
    by a new "labels" column of dtype int64 with one cell per cell of the
    old one. *)
Theorem one_hot_method_keeps_other_columns df df' :
  _format_one_hot_labels self df = Ok df' ->
  exists col cells,
    getitem df "labels" = Ok col /\
    length cells = length col /\
    last df' = Some ("labels", {| col_dtype := "int64"; col_data := cells |}) /\
    getitem df' "labels" = Ok cells /\
    filter (fun c : string * column => c.1 ≠ "labels") df'
    = filter (fun c : string * column => c.1 ≠ "labels") df.
Proof.
  intros Hok. destruct (one_hot_method_result df df' Hok) as (col & cells & Hcol & Hlen & ->).
  exists col, cells. split; [done|]. split; [done|]. split; [|split].
  - unfold relabelled. by rewrite last_snoc.
  - unfold relabelled. apply getitem_added, has_column_removed.
  - apply filter_relabelled.
Qed.

Lemma length_insert_unique z l : 1 <= length (insert_unique z l).
Proof.
  destruct l as [|y r]; simpl; [lia|].
  destruct (z <? y)%Z; simpl; [lia|]. destruct (z =? y)%Z; simpl; lia.
Qed.

(** X3.  With [num_labels <= 0] the method never returns a table, whatever
    the table it is given; when the "labels" column holds at least one
    label, the exception is the [AssertionError]. *)
Theorem one_hot_method_needs_positive_num_labels df :
  (num_labels self <= 0)%Z ->
  exists e,
    _format_one_hot_labels self df = Raise e /\
    forall col arr,
      getitem df "labels" = Ok col -> np_array col = Ok arr ->
      leaves (CList col) ≠ [] -> e = AssertionError.
Proof.
  intros Hn.
  destruct (getitem df "labels") as [col|e] eqn:Hcol.
  2:{ exists e. split; [unfold _format_one_hot_labels; by rewrite Hcol|].
      intros col0 arr0 Hcol0. discriminate Hcol0. }
  destruct (np_array col) as [arr|e] eqn:Harr.
  2:{ exists e. split.
      - unfold _format_one_hot_labels. rewrite Hcol. simpl. by rewrite Harr.
      - intros col0 arr0 [= <-] Harr0. congruence. }
  unfold _format_one_hot_labels. rewrite Hcol. simpl. rewrite Harr. simpl.
  unfold np_unique. rewrite (np_array_items _ _ Harr).
  destruct (leaves (CList col)) as [|x r] eqn:Hleaves.
  - change (Z.of_nat (length (foldr insert_unique [] []))) with 0%Z.
    destruct (Z.leb_spec 0 (num_labels self)); simpl.
    + rewrite np_eye_nonneg by lia. simpl.
      unfold np_take. rewrite (np_array_dtype _ _ Harr Hleaves).
      exists IndexError. split; [done|]. intros col0 arr0 [= <-] _ Hne. done.
    + exists AssertionError. split; [done|]. done.
  - pose proof (length_insert_unique x (foldr insert_unique [] r)) as Hlen.
    change (foldr insert_unique [] (x :: r))
      with (insert_unique x (foldr insert_unique [] r)).
    destruct (Z.leb_spec (Z.of_nat (length (insert_unique x (foldr insert_unique [] r))))
                (num_labels self)); [lia|].
    exists AssertionError. split; [done|]. done.
Qed.

End OneHotMethod.

(** Two classes, the labels [-1] and [0]: the label [-1] is expanded as the
    class [1]. *)
Lemma one_hot_method_succeeds_iff_witness :
  _format_one_hot_labels (__init__ RewardClassificationTrainer (sample_args 2))
    (sample_table [CInt (-1); CInt 0])
  = Ok (relabelled (sample_table [CInt (-1); CInt 0])
          [CList [CInt 0; CInt 1]; CList [CInt 1; CInt 0]]).
Proof.
  apply (proj2 (one_hot_method_succeeds_iff
                  (__init__ RewardClassificationTrainer (sample_args 2))
                  (sample_table [CInt (-1); CInt 0]) [-1; 0]%Z _ eq_refl)).
  split; [discriminate|]. split; [|split; [|reflexivity]].
  - apply not_more_distinct_counted. simpl. lia.
  - repeat constructor; simpl; lia.
Defined.

Lemma one_hot_method_keeps_other_columns_witness :
  exists col cells,
    getitem (sample_table [CInt 0; CInt 2; CInt 1]) "labels" = Ok col /\
    length cells = length col /\
    last (relabelled (sample_table [CInt 0; CInt 2; CInt 1])
            (map (one_hot 3) [0; 2; 1]%Z))
    = Some ("labels", {| col_dtype := "int64"; col_data := cells |}) /\
    getitem (relabelled (sample_table [CInt 0; CInt 2; CInt 1])
               (map (one_hot 3) [0; 2; 1]%Z)) "labels" = Ok cells /\
    filter (fun c : string * column => c.1 ≠ "labels")
      (relabelled (sample_table [CInt 0; CInt 2; CInt 1]) (map (one_hot 3) [0; 2; 1]%Z))
    = filter (fun c : string * column => c.1 ≠ "labels")
        (sample_table [CInt 0; CInt 2; CInt 1]).
Proof.
  apply (one_hot_method_keeps_other_columns
           (__init__ RewardClassificationTrainer (sample_args 3))).
  reflexivity.
Defined.

Lemma one_hot_method_needs_positive_num_labels_witness :
  exists e,
    _format_one_hot_labels (__init__ RewardClassificationTrainer (sample_args 0))
      (sample_table [CInt 0]) = Raise e /\
    forall col arr,
      getitem (sample_table [CInt 0]) "labels" = Ok col -> np_array col = Ok arr ->
      leaves (CList col) ≠ [] -> e = AssertionError.
Proof.
  apply (one_hot_method_needs_positive_num_labels
           (__init__ RewardClassificationTrainer (sample_args 0))).
  simpl. lia.
Defined.

(** ** What formatting and fitting never touch *)

Section Maintains.

Context (R : relation state) `{!PreOrder R}.

Lemma maintains_ret {A : Type} (a : A) : maintains R (mret a).
Proof. intros s. simpl. reflexivity. Qed.

Lemma maintains_bind {A B : Type} (m : M A) (f : A -> M B) :
  maintains R m -> (forall a, maintains R (f a)) -> maintains R (m ≫= f).
Proof.
  intros Hm Hf s. unfold mbind, M_bind. specialize (Hm s).
  destruct (m s) as [[a|e] s1]; simpl in *; [|done].
  etransitivity; [exact Hm | apply Hf].
Qed.

(** Computations that only read. *)
Lemma maintains_reader {A : Type} (m : M A) :
  (forall s, (m s).2 = s) -> maintains R m.
Proof. intros Hm s. rewrite Hm. reflexivity. Qed.

Lemma reads_read_table l s : (read_table l s).2 = s.
Proof. unfold read_table. by destruct (heap s !! l) as [[|]|]. Qed.

Lemma reads_read_dict l s : (read_dict l s).2 = s.
Proof. unfold read_dict. by destruct (heap s !! l) as [[|]|]. Qed.

Lemma reads_getattr {A : Type} name (field : reward_trainer -> option A) s :
  (getattr name field s).2 = s.
Proof. unfold getattr. by destruct (field (self s)). Qed.

Hypothesis R_alloc : forall o, maintains R (alloc o).

Lemma maintains_format_fold d fold df :
  (forall k v, maintains R (setitem_dict d k v)) ->
  maintains R (format_fold d fold df).
Proof.
  intros Hset. unfold format_fold.
  apply maintains_bind; [apply maintains_reader, reads_read_table | intros tbl].
  apply maintains_bind; [by apply maintains_reader | intros col].
  apply maintains_bind; [by apply maintains_reader | intros arr].
  destruct (Nat.eqb (ndim arr) 1); [|apply maintains_ret].
  apply maintains_bind; [by apply maintains_reader | intros t].
  apply maintains_bind; [by apply maintains_reader | intros tbl'].
  apply maintains_bind; [apply R_alloc | intros l; apply Hset].
Qed.

Lemma maintains_for_items body d i n :
  (forall fold df, maintains R (body fold df)) -> maintains R (for_items body d i n).
Proof.
  intros Hbody. revert i. induction n as [|n IH]; intros i; simpl.
  - apply maintains_ret.
  - apply maintains_bind; [apply maintains_reader, reads_read_dict | intros items].
    destruct (items !! i) as [[fold df]|]; [|apply maintains_ret].
    apply maintains_bind; [apply Hbody | intros _; apply IH].
Qed.

Lemma maintains_cast_folds name dtype items : maintains R (cast_folds name dtype items).
Proof.
  induction items as [|[fold df] rest IH]; simpl.
  - apply maintains_ret.
  - apply maintains_bind; [apply maintains_reader, reads_read_table | intros tbl].
    apply maintains_bind; [apply R_alloc | intros l].
    apply maintains_bind; [apply IH | intros rest'; apply maintains_ret].
Qed.

Lemma maintains_format_mapping_dtype data name dtype :
  maintains R (format_mapping_dtype data name dtype).
Proof.
  unfold format_mapping_dtype.
  apply maintains_bind; [apply maintains_reader, reads_read_dict | intros items].
  apply maintains_bind; [apply maintains_cast_folds | intros items'; apply R_alloc].
Qed.

(** The loop of the classification hook on the mapping at [d]. *)
Lemma maintains_classification_loop (d : loc) :
  (forall k v, maintains R (setitem_dict d k v)) ->
  maintains R (items ← read_dict d;
               for_items (format_fold d) d 0 (length items);;
               mret d).
Proof.
  intros Hset.
  apply maintains_bind; [apply maintains_reader, reads_read_dict | intros items].
  apply maintains_bind; [|intros _; apply maintains_ret].
  apply maintains_for_items. intros. by apply maintains_format_fold.
Qed.

End Maintains.

Section NeverTouched.

Implicit Types (s : state) (k : nat).

#[local] Instance same_log_preorder : PreOrder same_log.
Proof. split; [by intros s | intros s1 s2 s3; unfold same_log; congruence]. Qed.

#[local] Instance same_heap_preorder : PreOrder same_heap.
Proof. split; [by intros s | intros s1 s2 s3; unfold same_heap; congruence]. Qed.

#[local] Instance extends_from_preorder k : PreOrder (extends_from k).
Proof.
  split.
  - intros s Hk. done.
  - intros s1 s2 s3 H12 H23 Hk. destruct (H12 Hk) as [Hk2 Hl2].
    destruct (H23 Hk2) as [Hk3 Hl3]. split; [done|].
    intros l Hl. by rewrite Hl3, Hl2.
Qed.

Lemma same_log_alloc o : maintains same_log (alloc o).
Proof. by intros s. Qed.

Lemma same_log_setitem_dict d key v : maintains same_log (setitem_dict d key v).
Proof. intros s. unfold setitem_dict. by destruct (heap s !! d) as [[|]|]. Qed.

Lemma extends_from_alloc k o : maintains (extends_from k) (alloc o).
Proof.
  intros s Hk. simpl. rewrite length_app. split; [lia|].
  intros l Hl. apply lookup_app_l. lia.
Qed.

Lemma extends_from_setitem_dict k d key v :
  k <= d -> maintains (extends_from k) (setitem_dict d key v).
Proof.
  intros Hd s Hk. unfold setitem_dict.
  destruct (heap s !! d) as [[|items]|]; simpl; try done.
  rewrite length_insert. split; [done|].
  intros l Hl. apply list_lookup_insert_ne. lia.
Qed.

Lemma same_heap_extends_from k s s' : same_heap s s' -> extends_from k s s'.
Proof. unfold same_heap. intros Hh Hk. by rewrite Hh. Qed.

(** The hook calls no collaborator. *)
Lemma same_log_format_data data : maintains same_log (_format_data_by_training_task data).
Proof.
  unfold _format_data_by_training_task.
  intros s. unfold mbind at 1, M_bind at 1, get_self at 1.
  destruct (cls (self s)).
  - done.
  - apply maintains_format_mapping_dtype; [apply _ | apply same_log_alloc].
  - apply maintains_bind; [apply _ | |].
    + apply maintains_bind; [apply _ | |].
      * apply maintains_reader; [apply _ | apply reads_read_dict].
      * intros items. apply same_log_alloc.
    + intros d. apply maintains_classification_loop;
        [apply _ | apply same_log_alloc | apply same_log_setitem_dict].
Qed.

(** The hook changes no object that exists when it is called. *)
Lemma extends_from_format_data data s :
  extends_from (length (heap s)) s (_format_data_by_training_task data s).2.
Proof.
  unfold _format_data_by_training_task.
  unfold mbind at 1, M_bind at 1, get_self at 1.
  destruct (cls (self s)).
  - reflexivity.
  - apply (maintains_format_mapping_dtype (extends_from (length (heap s)))).
    apply extends_from_alloc.
  - unfold mbind at 1, M_bind at 1, copy_copy, mbind at 1, M_bind at 1, read_dict at 1.
    destruct (heap s !! data) as [[|items]|]; try reflexivity.
    cbn [alloc].
    etransitivity; [apply (extends_from_alloc _ (ODict items) s)|].
    apply (maintains_classification_loop (extends_from (length (heap s))));
      [apply extends_from_alloc | intros; by apply extends_from_setitem_dict].
Qed.

Lemma format_data_frame (data : loc) s (l : loc) o :
  heap s !! l = Some o ->
  heap (_format_data_by_training_task data s).2 !! l = Some o.
Proof.
  intros Hl.
  destruct (extends_from_format_data data s) as [_ Hsame]; [done|].
  rewrite Hsame; [done | by eapply lookup_lt_Some].
Qed.

(** X4.  The formatting hook of the classification trainer leaves [self],
    the log and every object that exists when it is called as they are,
    whether it returns or raises, and whatever the heap holds at [data]: it
    never assigns to the instance, calls no collaborator and mutates neither
    the caller's mapping nor a table. *)
Theorem formatting_never_mutates (data : loc) s :
  cls (self s) = RewardClassificationTrainer ->
  self (_format_data_by_training_task data s).2 = self s /\
  log (_format_data_by_training_task data s).2 = log s /\
  forall (l : loc) o,
    heap s !! l = Some o ->
    heap (_format_data_by_training_task data s).2 !! l = Some o.
Proof.
  intros _.
  split; [apply keeps_self_format_data|]. split; [apply same_log_format_data|].
  intros l o. apply format_data_frame.
Qed.

End NeverTouched.

(** ** More on the classification hook *)

Section HookOutcomes.

Implicit Types (s : state) (items : list (string * loc)) (df : table) (ls : list Z).

Lemma getitem_missing df name :
  has_column df name = false -> getitem df name = Raise (KeyError name).
Proof.
  unfold has_column, getitem. induction df as [|[k c] r IH]; simpl; [done|].
  destruct (String.eqb k name); simpl; [done | auto].
Qed.

(** X5.  A fold whose table has no "labels" column: when the folds before
    it in the mapping are formatted without exception, the hook raises
    [KeyError] for "labels" and returns no mapping; the caller's mapping is
    as it was. *)
Theorem fold_without_labels_raises_KeyError s (d : loc) pre fold (df : loc) post tbl :
  cls (self s) = RewardClassificationTrainer ->
  heap s !! d = Some (ODict (pre ++ (fold, df) :: post)) ->
  NoDup (map fst (pre ++ (fold, df) :: post)) ->
  Forall (fun kv => kv.2 < length (heap s)) (pre ++ (fold, df) :: post) ->
  Forall (fun kv => exists o, fold_outcome (self s) (heap s !! kv.2) = Ok o) pre ->
  heap s !! df = Some (OTable tbl) ->
  has_column tbl "labels" = false ->
  exists s',
    _format_data_by_training_task d s = (Raise (KeyError "labels"), s') /\
    heap s' !! d = Some (ODict (pre ++ (fold, df) :: post)).
Proof.
  intros Hcls Hd Hnd Hrefs Hpre Hdf Hno.
  assert (fold_outcome (self s) (heap s !! df) = Raise (KeyError "labels")) as Hout.
  { rewrite Hdf. unfold fold_outcome. by rewrite (getitem_missing _ _ Hno). }
  rewrite (classification_hook_run _ _ _ Hcls Hd Hnd Hrefs).
  pose proof (run_folds_raise (self s) (heap s) (S (length (heap s)))
                pre fold df post _ Hpre Hout) as Hfirst.
  destruct (run_folds (self s) (heap s) (S (length (heap s))) (pre ++ (fold, df) :: post))
    as [[r items'] news].
  simpl in Hfirst. subst r. eexists. split; [done|]. cbn [heap].
  rewrite lookup_app_l by (by eapply lookup_lt_Some). done.
Qed.

(** A one-dimensional array comes from a flat list of integers. *)
Lemma common_shape_scalars shapes n :
  common_shape shapes = Some [n] -> Forall (fun o => o = Some []) shapes.
Proof.
  destruct shapes as [|[sh|] rest]; simpl; [constructor | | done].
  destruct (forallb _ rest) eqn:Hall; [|done].
  intros [= _ ->]. constructor; [done|].
  apply Forall_forall. intros o Ho.
  rewrite forallb_forall in Hall. apply list_elem_of_In in Ho.
  specialize (Hall o Ho). by apply bool_decide_eq_true in Hall.
Qed.

Lemma cell_shape_scalar c : cell_shape c = Some [] -> exists z, c = CInt z.
Proof.
  destruct c as [z|l]; [by exists z|]. simpl.
  destruct (map cell_shape l) as [|[sh|] rest]; simpl; [done | | done].
  by destruct (forallb _ rest).
Qed.

Lemma np_array_one_dimensional col arr :
  np_array col = Ok arr -> ndim arr = 1 -> exists ls, col = map CInt ls.
Proof.
  unfold np_array. destruct (cell_shape (CList col)) as [sh|] eqn:Hsh; [|done].
  intros [= <-]. unfold ndim. cbn [nd_shape]. intros Hlen.
  destruct sh as [|n [|? ?]]; try done.
  simpl in Hsh. apply common_shape_scalars in Hsh.
  clear Hlen. induction col as [|c r IH]; [by exists []|].
  simpl in Hsh. inversion Hsh as [|? ? Hc Hr]; subst.
  destruct (cell_shape_scalar c Hc) as [z ->].
  destruct (IH Hr) as [ls ->]. by exists (z :: ls).
Qed.

(** A column of one-hot vectors is a two-dimensional array. *)
Lemma np_array_one_hot (n : Z) ls :
  ls ≠ [] ->
  exists arr, np_array (map (one_hot_wrapped n) ls) = Ok arr /\ ndim arr = 2.
Proof.
  intros Hne. unfold np_array.
  assert (cell_shape (CList (map (one_hot_wrapped n) ls))
          = Some [length ls; Z.to_nat n]) as ->.
  { assert (forall z, cell_shape (one_hot_wrapped n z) = Some [Z.to_nat n]) as Hrow.
    { intros z. unfold one_hot_wrapped, one_hot.
      by rewrite cell_shape_flat, length_eye_row. }
    change (cell_shape (CList (map (one_hot_wrapped n) ls)))
      with (common_shape (map cell_shape (map (one_hot_wrapped n) ls))).
    rewrite map_map.
    rewrite (map_ext _ (fun _ => Some [Z.to_nat n])) by (intros; apply Hrow).
    destruct ls as [|z r]; [done|]. cbn [map common_shape].
    replace (forallb _ _) with true; [cbn [length]; by rewrite length_map|].
    symmetry. apply forallb_forall. intros o Ho.
    apply in_map_iff in Ho as (x & <- & _).
    by apply bool_decide_eq_true. }
  eexists. split; [reflexivity | done].
Qed.

(** What the loop body stores is recognised as already formatted. *)
Lemma fold_outcome_formatted self o tbl :
  fold_outcome self o = Ok (Some tbl) -> multi_dimensional_labels tbl.
Proof.
  unfold fold_outcome. destruct o as [[df|]|]; try done.
  destruct (getitem df "labels") as [col|] eqn:Hcol; [|done]. simpl.
  destruct (np_array col) as [arr|] eqn:Harr; [|done]. simpl.
  destruct (Nat.eqb_spec (ndim arr) 1) as [Hdim|]; [|done].
  destruct (_format_one_hot_labels self _) as [tbl'|] eqn:Hone; [|done].
  simpl. intros [= <-].
  destruct (np_array_one_dimensional _ _ Harr Hdim) as [ls ->].
  assert (flat_labels (format_dataset_dtype df "labels" "int64") ls) as Hflat
    by (unfold flat_labels; by rewrite getitem_cast).
  destruct (one_hot_labels_flat_inv self _ ls _ Hflat Hone) as (Hne & _ & _ & ->).
  destruct (np_array_one_hot (num_labels self) ls Hne) as (arr' & Harr' & Hdim').
  exists (map (one_hot_wrapped (num_labels self)) ls), arr'.
  split; [|split; [done | lia]].
  unfold relabelled. apply getitem_added, has_column_removed.
Qed.

Lemma run_folds_all_kept self h (a : loc) todo :
  Forall (fun kv => fold_outcome self (h !! kv.2) = Ok None) todo ->
  run_folds self h a todo = (Ok tt, todo, []).
Proof.
  induction 1 as [|[k v] rest Hkv _ IH]; simpl; [done|].
  simpl in Hkv. by rewrite Hkv, IH.
Qed.

Lemma Forall2_Forall_right {A B : Type} (Q : A -> B -> Prop) (P : B -> Prop) l k :
  Forall2 Q l k -> (forall x y, Q x y -> P y) -> Forall P k.
Proof. intros HQ HP. induction HQ; constructor; eauto. Qed.

(** X6.  Formatting is idempotent.  Running the hook on the mapping it has
    returned returns a new mapping that refers to the same tables: nothing
    is reformatted and no table is allocated. *)
Theorem classification_hook_idempotent s (d : loc) items (d1 : loc) s1 :
  cls (self s) = RewardClassificationTrainer ->
  heap s !! d = Some (ODict items) ->
  NoDup (map fst items) ->
  Forall (fun kv => kv.2 < length (heap s)) items ->
  _format_data_by_training_task d s = (Ok d1, s1) ->
  exists items1,
    heap s1 !! d1 = Some (ODict items1) /\
    _format_data_by_training_task d1 s1 =
    (Ok (length (heap s1)),
     {| self := self s1; heap := heap s1 ++ [ODict items1]; log := log s1 |}).
Proof.
  intros Hcls Hd Hnd Hrefs.
  rewrite (classification_hook_run _ _ _ Hcls Hd Hnd Hrefs).
  pose proof (run_folds_ok (self s) (heap s) (S (length (heap s))) items) as Hrun.
  destruct (run_folds (self s) (heap s) (S (length (heap s))) items) as [[r items1] news].
  destruct r as [[]|e]; [|done]. intros [= <- <-].
  specialize (Hrun _ _ eq_refl).
  pose proof (Forall2_with_l _ _ _ _ Hrefs Hrun) as Hrel.
  exists items1. cbn [heap self log].
  assert ((heap s ++ ODict items1 :: news) !! length (heap s) = Some (ODict items1))
    as Hd1 by (by apply list_lookup_middle).
  split; [done|].
  assert (Forall (fun kv' =>
            kv'.2 < length (heap s ++ ODict items1 :: news) /\
            fold_outcome (self s) ((heap s ++ ODict items1 :: news) !! kv'.2) = Ok None)
            items1) as Hkept.
  { eapply Forall2_Forall_right; [exact Hrel|]. cbv beta.
    intros kv kv' [Hlt [_ [[Hsame Hnone]|(tbl & Hsome & Hge & Hnew)]]].
    - rewrite Hsame. rewrite lookup_app_l by done.
      split; [rewrite length_app; lia | done].
    - assert ((heap s ++ ODict items1 :: news) !! kv'.2 = Some (OTable tbl)) as Hl.
      { rewrite lookup_app_r by lia.
        replace (kv'.2 - length (heap s)) with (S (kv'.2 - S (length (heap s)))) by lia.
        exact Hnew. }
      split; [by eapply lookup_lt_Some|]. rewrite Hl.
      apply fold_outcome_multi_dimensional. by eapply fold_outcome_formatted. }
  rewrite (classification_hook_run
             {| self := self s; heap := heap s ++ ODict items1 :: news; log := log s |}
             (length (heap s)) items1 Hcls Hd1).
  - cbn [heap self log].
    rewrite run_folds_all_kept; [by rewrite app_nil_r|].
    eapply Forall_impl; [exact Hkept|]. by intros kv' [_ ?].
  - assert (map fst items1 = map fst items) as ->; [|done].
    clear -Hrun.
    induction Hrun as [|x y l k [Hxy _] _ IH]; simpl; [done | by rewrite IH, Hxy].
  - eapply Forall_impl; [exact Hkept|]. by intros kv' [? _].
Qed.

End HookOutcomes.

(** ** The life of an instance: [fit], [save], [push_to_hub] *)

Section Lifecycle.

Implicit Types (s : state) (items : list (string * loc)).

Lemma instantiate_reward_model_run s :
  instantiate_reward_model s =
  (Ok tt,
   {| self := with_model (self s)
                {| pretrained_name := model_name (self s);
                   head_num_labels := num_labels (self s);
                   problem_type := _training_task (cls (self s));
                   placement := device_map (self s) |};
      heap := heap s;
      log := log s ++ [from_pretrained
                         {| pretrained_name := model_name (self s);
                            head_num_labels := num_labels (self s);
                            problem_type := _training_task (cls (self s));
                            placement := device_map (self s) |}] |}).
Proof. reflexivity. Qed.

Lemma instantiate_reward_trainer_run s (d : loc) items m tok cfg :
  heap s !! d = Some (ODict items) ->
  model (self s) = Some m ->
  tokenizer (self s) = Some tok ->
  training_config s = (Ok cfg, s) ->
  instantiate_reward_trainer d s =
  match dict_get "train" items with
  | Some tr =>
      (Ok tt,
       {| self := with_trainer (self s)
                    {| tr_model := m;
                       tr_args := cfg;
                       tr_tokenizer := tok;
                       tr_train_dataset := tr;
                       tr_eval_dataset := dict_get "validation" items |};
          heap := heap s;
          log := log s |})
  | None => (Raise (KeyError "train"), s)
  end.
Proof.
  intros Hd Hm Htok Hcfg.
  rewrite training_config_of_hyperparameters in Hcfg. injection Hcfg as <-.
  unfold instantiate_reward_trainer, get_dict, getitem_dict.
  unfold mbind, M_bind, read_dict, getattr, training_config, get_self, mret, M_ret,
    lift, set_self.
  rewrite Hd. simpl. rewrite Hm. simpl. rewrite Htok. simpl. rewrite Hd.
  by destruct (dict_get "train" items).
Qed.

(** [fit] once the tokenizer is loaded and the data formatted: the model is
    loaded, then the engine is built on the formatted mapping and run. *)
Lemma fit_after_formatting s (d d' : loc) tok s2 items' :
  load (tokenize_loader (self s)) = Ok tok ->
  _format_data_by_training_task d
    {| self := with_tokenizer (self s) tok; heap := heap s; log := log s |}
  = (Ok d', s2) ->
  heap s2 !! d' = Some (ODict items') ->
  exists cfg,
    training_config s = (Ok cfg, s) /\
    fit d s =
    match dict_get "train" items' with
    | Some tr =>
        (Ok tt,
         {| self :=
              with_trainer
                (with_model (with_tokenizer (self s) tok)
                   {| pretrained_name := model_name (self s);
                      head_num_labels := num_labels (self s);
                      problem_type := _training_task (cls (self s));
                      placement := device_map (self s) |})
                {| tr_model := {| pretrained_name := model_name (self s);
                                  head_num_labels := num_labels (self s);
                                  problem_type := _training_task (cls (self s));
                                  placement := device_map (self s) |};
                   tr_args := cfg;
                   tr_tokenizer := tok;
                   tr_train_dataset := tr;
                   tr_eval_dataset := dict_get "validation" items' |};
            heap := heap s2;
            log := log s ++
                   [from_pretrained
                      {| pretrained_name := model_name (self s);
                         head_num_labels := num_labels (self s);
                         problem_type := _training_task (cls (self s));
                         placement := device_map (self s) |};
                    train
                      {| tr_model := {| pretrained_name := model_name (self s);
                                        head_num_labels := num_labels (self s);
                                        problem_type := _training_task (cls (self s));
                                        placement := device_map (self s) |};
                         tr_args := cfg;
                         tr_tokenizer := tok;
                         tr_train_dataset := tr;
                         tr_eval_dataset := dict_get "validation" items' |}] |})
    | None =>
        (Raise (KeyError "train"),
         {| self :=
              with_model (with_tokenizer (self s) tok)
                {| pretrained_name := model_name (self s);
                   head_num_labels := num_labels (self s);
                   problem_type := _training_task (cls (self s));
                   placement := device_map (self s) |};
            heap := heap s2;
            log := log s ++
                   [from_pretrained
                      {| pretrained_name := model_name (self s);
                         head_num_labels := num_labels (self s);
                         problem_type := _training_task (cls (self s));
                         placement := device_map (self s) |}] |})
    end.
Proof.
  intros Hload Hhook Hd'. eexists. split; [reflexivity|].
  rewrite fit_after_load, Hload. unfold mbind at 1, M_bind at 1. rewrite Hhook.
  pose proof (keeps_self_format_data d
    {| self := with_tokenizer (self s) tok; heap := heap s; log := log s |}) as Hself.
  pose proof (same_log_format_data d
    {| self := with_tokenizer (self s) tok; heap := heap s; log := log s |}) as Hlog.
  unfold same_log in Hlog. rewrite Hhook in Hself, Hlog.
  destruct s2 as [t2 h2 lg2]. simpl in Hself, Hlog, Hd'. subst t2 lg2.
  unfold mbind at 1, M_bind at 1. rewrite instantiate_reward_model_run.
  unfold mbind at 1, M_bind at 1.
  erewrite instantiate_reward_trainer_run;
    [|exact Hd'|reflexivity|reflexivity|reflexivity].
  destruct (dict_get "train" items') as [tr|]; [|reflexivity].
  unfold mbind, M_bind, getattr, emit. cbn. by rewrite <- app_assoc.
Qed.



(** X8.  A mapping without "train" is found out late.  With the tokenizer
    loaded and the data formatted into a mapping that has no "train" fold,
    [fit] raises [KeyError] only after the model has been loaded and stored
    on the instance; no engine is built and nothing is trained. *)
Theorem fit_without_train_fold s (d d' : loc) tok s2 items' :
  load (tokenize_loader (self s)) = Ok tok ->
  _format_data_by_training_task d
    {| self := with_tokenizer (self s) tok; heap := heap s; log := log s |}
  = (Ok d', s2) ->
  heap s2 !! d' = Some (ODict items') ->
  "train" ∉ map fst items' ->
  exists m s3,
    m = {| pretrained_name := model_name (self s);
           head_num_labels := num_labels (self s);
           problem_type := _training_task (cls (self s));
           placement := device_map (self s) |} /\
    fit d s = (Raise (KeyError "train"), s3) /\
    model (self s3) = Some m /\
    trainer (self s3) = trainer (self s) /\
    log s3 = log s ++ [from_pretrained m].
Proof.
  intros Hload Hhook Hd' Hno.
  destruct (fit_after_formatting s d d' tok s2 items' Hload Hhook Hd') as (cfg & _ & Hrun).
  rewrite (dict_get_absent _ _ Hno) in Hrun.
  eexists _, _. split; [reflexivity|]. split; [exact Hrun|]. repeat split.
Qed.

(** X9.  A [fit] that fails early.  When the loader raises, [fit] raises
    the same exception and changes nothing.  When the formatting hook
    raises, [fit] raises the same exception: the tokenizer is stored on the
    instance, but no model is loaded, no engine built, no collaborator
    called. *)
Theorem fit_fails_before_model s (d : loc) e :
  (load (tokenize_loader (self s)) = Raise e -> fit d s = (Raise e, s)) /\
  (forall tok s2,
     load (tokenize_loader (self s)) = Ok tok ->
     _format_data_by_training_task d
       {| self := with_tokenizer (self s) tok; heap := heap s; log := log s |}
     = (Raise e, s2) ->
     fit d s = (Raise e, s2) /\
     self s2 = with_tokenizer (self s) tok /\
     model (self s2) = model (self s) /\
     trainer (self s2) = trainer (self s) /\
     log s2 = log s).
Proof.
  split.
  - intros Hload. by rewrite fit_after_load, Hload.
  - intros tok s2 Hload Hhook.
    pose proof (keeps_self_format_data d
      {| self := with_tokenizer (self s) tok; heap := heap s; log := log s |}) as Hself.
    pose proof (same_log_format_data d
      {| self := with_tokenizer (self s) tok; heap := heap s; log := log s |}) as Hlog.
    unfold same_log in Hlog. rewrite Hhook in Hself, Hlog. simpl in Hself, Hlog.
    rewrite fit_after_load, Hload. unfold mbind at 1, M_bind at 1. rewrite Hhook.
    split; [done|]. split; [done|]. by rewrite Hself.
Qed.


(** X11.  Before [fit].  On an instance as the constructor leaves it,
    [save], [push_to_hub] and [instantiate_reward_trainer] (on any mapping,
    with or without "train") raise [AttributeError] for the model and change
    nothing.  Once [instantiate_reward_model] has run, [push_to_hub]
    publishes the model and only then raises [AttributeError] for the
    tokenizer. *)
Theorem methods_before_fit c a t h lg :
  new c a = Ok t ->
  (forall path,
     save path {| self := t; heap := h; log := lg |}
     = (Raise (AttributeError "model"), {| self := t; heap := h; log := lg |})) /\
  (forall hf_path private,
     push_to_hub hf_path private {| self := t; heap := h; log := lg |}
     = (Raise (AttributeError "model"), {| self := t; heap := h; log := lg |})) /\
  (forall (d : loc) items,
     h !! d = Some (ODict items) ->
     instantiate_reward_trainer d {| self := t; heap := h; log := lg |}
     = (Raise (AttributeError "model"), {| self := t; heap := h; log := lg |})) /\
  (forall hf_path private,
     exists m s1,
       instantiate_reward_model {| self := t; heap := h; log := lg |} = (Ok tt, s1) /\
       model (self s1) = Some m /\
       push_to_hub hf_path private s1
       = (Raise (AttributeError "tokenizer"),
          {| self := self s1; heap := heap s1;
             log := log s1 ++ [model_push_to_hub m hf_path private] |})).
Proof.
  unfold new. destruct (abstractmethods c); [|done]. intros [= <-].
  split; [done|]. split; [done|]. split.
  - intros d items Hd.
    unfold instantiate_reward_trainer, get_dict, mbind, M_bind, read_dict, getattr.
    cbn [heap self]. by rewrite Hd.
  - intros hf_path private. eexists _, _.
    split; [apply instantiate_reward_model_run|]. split; reflexivity.
Qed.

#[local] Existing Instance same_heap_preorder.

Lemma same_heap_instantiate_reward_trainer data :
  maintains same_heap (instantiate_reward_trainer data).
Proof.
  intros s. unfold same_heap, instantiate_reward_trainer, get_dict, getitem_dict.
  unfold mbind, M_bind, read_dict, getattr, training_config, get_self, mret, M_ret, lift.
  destruct (heap s !! data) as [[|items]|] eqn:Hd; simpl; try done.
  destruct (model (self s)); simpl; [|done].
  destruct (tokenizer (self s)); simpl; [|done].
  rewrite Hd. destruct (dict_get "train" items); simpl; done.
Qed.

(** X12.  [fit] of the classification trainer never mutates an object of
    the caller: every object that exists when [fit] is called (the mapping,
    its tables) is the same when [fit] returns or raises. *)
Theorem fit_never_mutates_data s (d : loc) :
  cls (self s) = RewardClassificationTrainer ->
  forall (l : loc) o, heap s !! l = Some o -> heap (fit d s).2 !! l = Some o.
Proof.
  intros _ l o Hl. rewrite fit_after_load.
  destruct (load (tokenize_loader (self s))) as [tok|e]; [|done].
  unfold mbind at 1, M_bind at 1.
  pose proof (format_data_frame d
    {| self := with_tokenizer (self s) tok; heap := heap s; log := log s |} l o Hl)
    as Hhook.
  destruct (_format_data_by_training_task d _) as [[d'|e] s2]; [|done].
  simpl in Hhook.
  match goal with |- heap (?m s2).2 !! l = _ =>
    assert (maintains same_heap m) as Hrest end.
  { apply (maintains_bind same_heap); [by intros s0 | intros _].
    apply (maintains_bind same_heap);
      [apply same_heap_instantiate_reward_trainer | intros _].
    apply (maintains_bind same_heap);
      [apply (maintains_reader same_heap), reads_getattr | intros t; by intros s0]. }
  by rewrite (Hrest s2).
Qed.

End Lifecycle.

(** ** Instances of the further properties *)

Lemma formatting_never_mutates_witness :
  heap (_format_data_by_training_task 1
          (sample_state RewardClassificationTrainer 3
             [OTable (sample_table [CInt 0; CInt 2; CInt 1]); ODict [("train", 0)]])).2
    !! 1
  = Some (ODict [("train", 0)]).
Proof.
  apply (proj2 (proj2 (formatting_never_mutates 1
           (sample_state RewardClassificationTrainer 3
              [OTable (sample_table [CInt 0; CInt 2; CInt 1]); ODict [("train", 0)]])
           eq_refl))).
  reflexivity.
Defined.

Lemma fold_without_labels_raises_KeyError_witness :
  (_format_data_by_training_task 1
     (sample_state RewardClassificationTrainer 3
        [OTable unlabelled_table; ODict [("train", 0)]])).1
  = Raise (KeyError "labels").
Proof.
  destruct (fold_without_labels_raises_KeyError
              (sample_state RewardClassificationTrainer 3
                 [OTable unlabelled_table; ODict [("train", 0)]])
              1 [] "train" 0 [] unlabelled_table) as (s' & Hrun & _).
  - reflexivity.
  - reflexivity.
  - simpl. apply NoDup_singleton.
  - repeat constructor.
  - constructor.
  - reflexivity.
  - reflexivity.
  - by rewrite Hrun.
Defined.

Lemma classification_hook_idempotent_witness :
  exists s1 s2,
    _format_data_by_training_task 1
      (sample_state RewardClassificationTrainer 3
         [OTable (sample_table [CInt 0; CInt 2; CInt 1]); ODict [("train", 0)]])
    = (Ok 2, s1) /\
    _format_data_by_training_task 2 s1 = (Ok 4, s2) /\
    heap s2 !! 2 = Some (ODict [("train", 3)]) /\
    heap s2 !! 4 = Some (ODict [("train", 3)]).
Proof.
  eexists _, _. split; [reflexivity|].
  edestruct (classification_hook_idempotent
               (sample_state RewardClassificationTrainer 3
                  [OTable (sample_table [CInt 0; CInt 2; CInt 1]); ODict [("train", 0)]])
               1 [("train", 0)]) as (items1 & Hitems1 & Hagain);
    [reflexivity | reflexivity | simpl; apply NoDup_singleton | repeat constructor
    | reflexivity |].
  cbn in Hitems1. injection Hitems1 as <-.
  split; [exact Hagain|]. split; reflexivity.
Defined.


Lemma fit_without_train_fold_witness :
  exists s3,
    fit 1 (sample_state RewardClassificationTrainer 3
             [OTable (sample_table [CInt 0; CInt 2; CInt 1]); ODict [("validation", 0)]])
    = (Raise (KeyError "train"), s3) /\
    length (log s3) = 1.
Proof.
  edestruct (fit_without_train_fold
               (sample_state RewardClassificationTrainer 3
                  [OTable (sample_table [CInt 0; CInt 2; CInt 1]);
                   ODict [("validation", 0)]])
               1)
    as (m & s3 & _ & Hfit & _ & _ & Hlog);
    [reflexivity | reflexivity | reflexivity | |].
  - simpl. intros Hin. apply list_elem_of_singleton in Hin. discriminate.
  - exists s3. split; [exact Hfit|]. by rewrite Hlog.
Defined.

Lemma fit_fails_before_model_witness :
  fit 1 {| self := __init__ RewardClassificationTrainer failing_loader_args;
           heap := [OTable (sample_table [CInt 0]); ODict [("train", 0)]];
           log := [] |}
  = (Raise ValueError,
     {| self := __init__ RewardClassificationTrainer failing_loader_args;
        heap := [OTable (sample_table [CInt 0]); ODict [("train", 0)]];
        log := [] |})
  /\ exists s2,
       fit 1 (sample_state RewardClassificationTrainer 2
                [OTable (sample_table [CInt 0; CInt 1; CInt 2]); ODict [("train", 0)]])
       = (Raise AssertionError, s2) /\
       model (self s2) = None /\ log s2 = [].
Proof.
  split.
  - apply (proj1 (fit_fails_before_model
                    {| self := __init__ RewardClassificationTrainer failing_loader_args;
                       heap := [OTable (sample_table [CInt 0]); ODict [("train", 0)]];
                       log := [] |} 1 ValueError)).
    reflexivity.
  - edestruct (proj2 (fit_fails_before_model
                 (sample_state RewardClassificationTrainer 2
                    [OTable (sample_table [CInt 0; CInt 1; CInt 2]); ODict [("train", 0)]])
                 1 AssertionError) (Tokenizer "tokenizer"))
      as (Hfit & _ & Hmodel & _ & Hlog); [reflexivity | reflexivity |].
    eexists. split; [exact Hfit|]. split; [exact Hmodel | exact Hlog].
Defined.


Lemma methods_before_fit_witness :
  (save VNone (sample_state RewardRegressionTrainer 1 [ODict []])).1
  = Raise (AttributeError "model") /\
  (instantiate_reward_trainer 0 (sample_state RewardRegressionTrainer 1 [ODict []])).1
  = Raise (AttributeError "model").
Proof.
  destruct (methods_before_fit RewardRegressionTrainer (sample_args 1) _ [ODict []] []
              eq_refl) as (Hsave & _ & Htrainer & _).
  split.
  - unfold sample_state. by rewrite Hsave.
  - unfold sample_state. rewrite (Htrainer 0 []); reflexivity.
Defined.

Lemma fit_never_mutates_data_witness :
  heap (fit 1 (sample_state RewardClassificationTrainer 3
                 [OTable (sample_table [CInt 0; CInt 2; CInt 1]); ODict [("train", 0)]])).2
    !! 0
  = Some (OTable (sample_table [CInt 0; CInt 2; CInt 1])).
Proof.
  apply fit_never_mutates_data; reflexivity.
Defined.
